(** * Price aggregation of [app.py]: a shallow embedding and its properties

    The development follows [src/app.py]: the three source adapters
    ([fetch_price_wilcon], [fetch_price_ace], [fetch_price_shopee]) and the
    request handler [get_stores] with its AI fallback.

    Python values are modelled as the interpreter has them:
    - [str] is a sequence of Unicode code points;
    - [int] is an unbounded integer ([Z]);
    - [float] is an IEEE binary64 number (the kernel's primitive floats);
    - JSON documents are the values that [json.loads] builds from them;
    - an exception is a value of [pyexn], and code that can raise returns
      [pyexn + A].

    The outside world (the three shops, the chat model) is a record of
    oracles, and every call to it is recorded in a trace. The conversions
    from text that the interpreter provides ([float], [int], [json.loads],
    [str] of a list) form an interface, [Builtins]: the properties of the
    endpoint are proved for every implementation of it, and a reference
    implementation runs the model on concrete requests. *)

From Stdlib Require Import ZArith NArith List Bool Lia Ascii String.
From Stdlib Require Import PrimFloat SpecFloat FloatOps.
Import ListNotations.

Set Implicit Arguments.
Local Open Scope list_scope.

(* ===================================================================== *)
(** * Python strings *)
(* ===================================================================== *)

Module PyStr.

(** A Python [str]: its code points, in order. *)
Definition str := list N.

(** ** String literals

    The literals of [app.py] are written here as they are in the file and
    decoded from UTF-8, the encoding Python reads a source file in. *)

Definition cont (b : N) : N := N.land b 63.

Fixpoint utf8_decode (bs : list N) : str :=
  match bs with
  | [] => []
  | b :: r =>
      if (b <? 128)%N then b :: utf8_decode r
      else if (b <? 224)%N then
        match r with
        | b1 :: r1 => (N.land b 31 * 64 + cont b1)%N :: utf8_decode r1
        | _ => [b]
        end
      else if (b <? 240)%N then
        match r with
        | b1 :: b2 :: r2 =>
            (N.land b 15 * 4096 + cont b1 * 64 + cont b2)%N :: utf8_decode r2
        | _ => [b]
        end
      else
        match r with
        | b1 :: b2 :: b3 :: r3 =>
            (N.land b 7 * 262144 + cont b1 * 4096 + cont b2 * 64 + cont b3)%N
              :: utf8_decode r3
        | _ => [b]
        end
  end.

Definition lit (s : string) : str :=
  utf8_decode (map N_of_ascii (list_ascii_of_string s)).

Definition str_eqb (a b : str) : bool :=
  if list_eq_dec N.eq_dec a b then true else false.

(** ** Whitespace: the code points for which [str.isspace] holds, the ones
    [str.strip()] and [str.split()] remove. *)
Definition isspace (c : N) : bool :=
  ((9 <=? c) && (c <=? 13) || (28 <=? c) && (c <=? 32)
   || (c =? 133) || (c =? 160) || (c =? 5760)
   || (8192 <=? c) && (c <=? 8202)
   || (c =? 8232) || (c =? 8233) || (c =? 8239) || (c =? 8287)
   || (c =? 12288))%N.

Fixpoint lstrip (s : str) : str :=
  match s with
  | c :: r => if isspace c then lstrip r else s
  | [] => []
  end.

Definition rstrip (s : str) : str := rev (lstrip (rev s)).

(** [s.strip()] *)
Definition strip (s : str) : str := rstrip (lstrip s).

(** [s.split()]: the maximal runs of non-space characters. [cur] holds
    the run being read, reversed. *)
Fixpoint split_go (cur : str) (s : str) : list str :=
  match s with
  | [] => match cur with [] => [] | _ => [rev cur] end
  | c :: r =>
      if isspace c
      then match cur with
           | [] => split_go [] r
           | _ => rev cur :: split_go [] r
           end
      else split_go (c :: cur) r
  end.

Definition split (s : str) : list str := split_go [] s.

(** [s.startswith(p)] *)
Fixpoint startswith (p s : str) : bool :=
  match p, s with
  | [], _ => true
  | a :: p', b :: s' => (a =? b)%N && startswith p' s'
  | _ :: _, [] => false
  end.

(** [s.replace(old, new)] for a non-empty [old]: every occurrence, left to
    right, without overlap. [skip] counts the characters of a matched
    occurrence still to be dropped. *)
Fixpoint replace_go (old new : str) (skip : nat) (s : str) : str :=
  match s with
  | [] => []
  | c :: r =>
      match skip with
      | S k => replace_go old new k r
      | O =>
          if startswith old s
          then new ++ replace_go old new (List.length old - 1) r
          else c :: replace_go old new 0 r
      end
  end.

Definition replace (old new s : str) : str :=
  match old with
  | [] => s
  | _ => replace_go old new 0 s
  end.

(** [s.find(ch)] for a one-character [ch]: the lowest index, or -1. *)
Fixpoint find_from (ch : N) (i : Z) (s : str) : Z :=
  match s with
  | [] => (-1)%Z
  | c :: r => if (c =? ch)%N then i else find_from ch (i + 1)%Z r
  end.

Definition find (ch : N) (s : str) : Z := find_from ch 0 s.

(** [s.rfind(ch)] for a one-character [ch]: the highest index, or -1. *)
Fixpoint rfind_from (ch : N) (i : Z) (best : Z) (s : str) : Z :=
  match s with
  | [] => best
  | c :: r =>
      rfind_from ch (i + 1)%Z (if (c =? ch)%N then i else best) r
  end.

Definition rfind (ch : N) (s : str) : Z := rfind_from ch 0 (-1) s.

(** [s[a:b]] for indices [0 <= a] and [0 <= b]. *)
Definition slice (a b : Z) (s : str) : str :=
  firstn (Z.to_nat b - Z.to_nat a) (skipn (Z.to_nat a) s).

End PyStr.
Import PyStr.

(* ===================================================================== *)
(** * Exceptions and Python numbers *)
(* ===================================================================== *)

(** The exceptions the modelled code can meet. [ServiceError] stands for
    whatever an outside service raises (a transport failure, a non-2xx
    status turned into an exception by [raise_for_status], a provider
    error). *)
Inductive pyexn : Type :=
| AttributeError | TypeError | ValueError | KeyError | IndexError
| OverflowError | ZeroDivisionError | JSONDecodeError | ServiceError.

(** A computation that returns or raises. *)
Definition res (A : Type) : Type := (pyexn + A)%type.
Abbreviation ok a := (@inr pyexn _ a).
Abbreviation raise e := (@inl pyexn _ e).

Module PyNum.

(** Rounding of an exact value to binary64 (round to nearest, ties to even),
    through the standard library's executable specification of IEEE 754. *)
Definition round_Z (z : Z) : spec_float := binary_normalize prec emax z 0 false.

(** [float(n)] for an [int]: the nearest double, [OverflowError] when there
    is none ("int too large to convert to float"). *)
Definition float_of_int (z : Z) : res float :=
  match round_Z z with
  | S754_infinity _ => raise OverflowError
  | sf => ok (SF2Prim sf)
  end.

(** The double nearest to the rational [a / b], for [b <> 0]. *)
Definition round_quot (a b : Z) : spec_float :=
  match a, b with
  | Z0, _ => S754_zero (b <? 0)%Z
  | _, Z0 => S754_nan
  | _, _ =>
      SFdiv prec emax
        (S754_finite (a <? 0)%Z (Z.to_pos (Z.abs a)) 0)
        (S754_finite (b <? 0)%Z (Z.to_pos (Z.abs b)) 0)
  end.

(** [a / b] on two [int]s: true division, correctly rounded. *)
Definition int_truediv (a b : Z) : res float :=
  if (b =? 0)%Z then raise ZeroDivisionError
  else match round_quot a b with
       | S754_infinity _ => raise OverflowError
       | sf => ok (SF2Prim sf)
       end.

(** [x / n] for a [float] [x] and an [int] [n]. *)
Definition float_div_int (x : float) (n : Z) : res float :=
  match float_of_int n with
  | inl e => raise e
  | inr d => if (n =? 0)%Z then raise ZeroDivisionError else ok (x / d)%float
  end.

(** [x * n] for a [float] [x] and an [int] [n]: [n] is converted first, and
    the conversion raises [OverflowError] when [n] has no double. *)
Definition float_mul_int (x : float) (n : Z) : res float :=
  match float_of_int n with
  | inl e => raise e
  | inr d => ok (x * d)%float
  end.

(** [int(x)] for a [float]: truncation towards zero. *)
Definition int_of_float (x : float) : res Z :=
  match Prim2SF x with
  | S754_nan => raise ValueError
  | S754_infinity _ => raise OverflowError
  | S754_zero _ => ok 0%Z
  | S754_finite s m e =>
      let a := match e with
               | Zneg k => Z.shiftr (Zpos m) (Zpos k)
               | _ => Z.shiftl (Zpos m) e
               end in
      ok (if s then (- a)%Z else a)
  end.

(** The double nearest to [m * 10^e], signed; what the C library's [strtod]
    returns for a decimal literal (an overflow gives an infinity). *)
Definition float_of_decimal (neg : bool) (m : Z) (e : Z) : float :=
  let sf :=
    match m with
    | Z0 => S754_zero false
    | _ => match e with
           | Zneg k => round_quot m (10 ^ Zpos k)
           | _ => round_Z (m * 10 ^ e)
           end
    end in
  if neg then (- SF2Prim sf)%float else SF2Prim sf.

End PyNum.
Import PyNum.


(* ===================================================================== *)
(** * JSON values *)
(* ===================================================================== *)

(** What [json.loads] and [request.get_json] build: [None], [bool], [int],
    [float], [str], [list] and [dict] with [str] keys. A [dict] is kept as
    its items in insertion order. *)
#[local] Unset Elimination Schemes.
Inductive json : Type :=
| JNull
| JBool (b : bool)
| JInt (z : Z)
| JFloat (x : float)
| JStr (s : str)
| JArr (l : list json)
| JObj (kv : list (str * json)).
#[local] Set Elimination Schemes.

(** Truth value of an object, as [if v], [not v] and [v or d] test it. *)
Definition truthy (v : json) : bool :=
  match v with
  | JNull => false
  | JBool b => b
  | JInt z => negb (z =? 0)%Z
  | JFloat x => negb (x =? 0)%float
  | JStr s => match s with [] => false | _ => true end
  | JArr l => match l with [] => false | _ => true end
  | JObj kv => match kv with [] => false | _ => true end
  end.

(** [v or d] *)
Definition py_or (v d : json) : json := if truthy v then v else d.

Fixpoint lookup (k : str) (kv : list (str * json)) : option json :=
  match kv with
  | [] => None
  | (k', v) :: r => if str_eqb k k' then Some v else lookup k r
  end.

(** [v.get(k, d)]: only a [dict] has the method. *)
Definition py_get (v : json) (k : str) (d : json) : res json :=
  match v with
  | JObj kv => ok (match lookup k kv with Some x => x | None => d end)
  | _ => raise AttributeError
  end.

(** [v[k]] for a [str] key [k]. *)
Definition py_getitem (v : json) (k : str) : res json :=
  match v with
  | JObj kv => match lookup k kv with Some x => ok x | None => raise KeyError end
  | _ => raise TypeError
  end.

(** [v[0]] *)
Definition py_first (v : json) : res json :=
  match v with
  | JArr (x :: _) => ok x
  | JArr [] => raise IndexError
  | JStr (c :: _) => ok (JStr [c])
  | JStr [] => raise IndexError
  | JObj _ => raise KeyError
  | _ => raise TypeError
  end.

(** The interpreter's conversions between text and values, taken as given:
    - [float_of_str s] is [float(s)] for a [str], [None] when it raises
      [ValueError];
    - [int_of_str s] is [int(s)] for a [str], likewise;
    - [json_loads s] is [json.loads(s)], [None] when it raises;
    - [str_of_list l] is [str(l)] for a [list], as an f-string renders it. *)
Class Builtins : Type := {
  float_of_str : str -> option float;
  int_of_str : str -> option Z;
  json_loads : str -> option json;
  str_of_list : list json -> str
}.

Section Conversions.
Context {B : Builtins}.

(** [float(v)] *)
Definition py_float (v : json) : res float :=
  match v with
  | JBool b => ok (if b then 1 else 0)%float
  | JInt z => float_of_int z
  | JFloat x => ok x
  | JStr s => match float_of_str s with Some x => ok x | None => raise ValueError end
  | JNull | JArr _ | JObj _ => raise TypeError
  end.

(** [int(v)] *)
Definition py_int (v : json) : res Z :=
  match v with
  | JBool b => ok (if b then 1 else 0)%Z
  | JInt z => ok z
  | JFloat x => int_of_float x
  | JStr s => match int_of_str s with Some z => ok z | None => raise ValueError end
  | JNull | JArr _ | JObj _ => raise TypeError
  end.

(** [v.strip()]: only a [str] has the method. *)
Definition py_strip (v : json) : res str :=
  match v with
  | JStr s => ok (strip s)
  | _ => raise AttributeError
  end.

(** [v / n] for an [int] [n]. *)
Definition py_truediv (v : json) (n : Z) : res float :=
  match v with
  | JBool b => int_truediv (if b then 1 else 0) n
  | JInt z => int_truediv z n
  | JFloat x => float_div_int x n
  | JNull | JStr _ | JArr _ | JObj _ => raise TypeError
  end.

(** [f"{v[:n]}"]: the slice of a [str] or of a [list], formatted. *)
Definition py_slice_format (v : json) (n : nat) : res str :=
  match v with
  | JStr s => ok (firstn n s)
  | JArr l => ok (str_of_list (firstn n l))
  | _ => raise TypeError
  end.

(** [for s in v]: the elements the loop visits. *)
Definition py_iter (v : json) : res (list json) :=
  match v with
  | JArr l => ok l
  | JStr s => ok (map (fun c => JStr [c]) s)
  | JObj kv => ok (map (fun p => JStr (fst p)) kv)
  | JNull | JBool _ | JInt _ | JFloat _ => raise TypeError
  end.

End Conversions.

(* ===================================================================== *)
(** * The outside world and the trace of calls *)
(* ===================================================================== *)

(** The first [.product-card] of a search page, as the scrapers read it:
    the stripped text of its title element ([.product-title] at Wilcon,
    [.product-name] at ACE) and of its [.price] element, each absent when
    [select_one] finds none. *)
Record card : Type := { title_text : option str; price_text : option str }.

(** The services [app.py] talks to. Each oracle is the whole exchange:
    - [get_wilcon kw] and [get_ace kw]: [requests.get] on the search URL for
      [kw], [raise_for_status()], and [soup.select_one(".product-card")]
      ([None] when the page has no card);
    - [get_shopee kw]: the same request on the search API, then
      [resp.json()];
    - [chat item]: [client.chat.completions.create] with the fixed prompt of
      [get_stores] around [item], and the [content] of its first choice. *)
Record World : Type := {
  get_wilcon : str -> res (option card);
  get_ace : str -> res (option card);
  get_shopee : str -> res json;
  chat : str -> res (option str)
}.

Inductive call : Type := CallWilcon | CallAce | CallShopee | CallAI.

Definition trace := list call.

(** Code that calls the outside world: it returns or raises, and extends the
    trace of the calls made so far. *)
Definition M (A : Type) : Type := trace -> res A * trace.

Definition ret {A} (a : A) : M A := fun t => (ok a, t).

Definition bind {A C} (m : M A) (k : A -> M C) : M C :=
  fun t => match m t with
           | (inl e, t') => (inl e, t')
           | (inr a, t') => k a t'
           end.

Definition lift {A} (r : res A) : M A := fun t => (r, t).

Definition emit (c : call) : M unit := fun t => (ok tt, t ++ [c]).

Definition res_bind {A C} (r : res A) (k : A -> res C) : res C :=
  match r with
  | inl e => inl e
  | inr a => k a
  end.

Declare Scope py_scope.
Delimit Scope py_scope with py.
Notation "x <- m ;; k" := (bind m (fun x => k))
  (at level 61, m at next level, right associativity) : py_scope.
Notation "'let!' x ':=' r 'in' k" := (res_bind r (fun x => k))
  (at level 61, x name, r at next level, right associativity) : py_scope.
Local Open Scope py_scope.

(** [try: ... except Exception: return None] around a body that returns a
    value or [None]. *)
Definition or_none {A} (r : res (option A)) : option A :=
  match r with
  | inl _ => None
  | inr x => x
  end.

(* ===================================================================== *)
(** * Quotes *)
(* ===================================================================== *)

(** The [dict] an adapter returns. *)
Record listing : Type := {
  l_store : str;
  l_address : str;
  l_unit_price : float;
  l_confidence : str;
  l_source : str
}.

(** An entry of [results]. The AI entries copy [store], [address] and
    [confidence] from the parsed JSON, whatever their type. *)
Record quote : Type := {
  store : json;
  address : json;
  unit_price : float;
  quantity : Z;
  total_price : float;
  confidence : json;
  source : str
}.

Inductive response : Type :=
| Stores (results : list quote)   (* 200, {"stores": results} *)
| ItemRequired                    (* 400, {"error": "Item is required"} *)
| ServerError (e : pyexn).        (* 500, {"error": str(e)} *)

(* ===================================================================== *)
(** * The source adapters and the request handler *)
(* ===================================================================== *)

Section App.
Context {B : Builtins}.
Variable w : World.

(** Lines 37-38 and 70-71: the price text loses every occurrence of the
    currency literal, then every comma; its first whitespace-separated word
    goes to [float]. The literal is the one [app.py] holds, three characters
    long. *)
Definition scraped_price (price_text : str) : res float :=
  match split (replace (lit ",") [] (replace (lit "â‚±") [] price_text)) with
  | [] => raise IndexError
  | tok :: _ =>
      match float_of_str tok with
      | Some x => ok x
      | None => raise ValueError
      end
  end.

(** Lines 22-46: the body of the [try] of [fetch_price_ace]. *)
Definition ace_try (item_keywords : str) : res (option listing) :=
  let! soup := get_ace w item_keywords in
  match soup with
  | None => ok None
  | Some c =>
      let title := match title_text c with
                   | Some t => t
                   | None => item_keywords
                   end in
      match price_text c with
      | None => ok None
      | Some price_text =>
          let! price := scraped_price price_text in
          ok (Some {| l_store := lit "ACE Hardware â€“ " ++ title;
                      l_address := lit "Various ACE branches in Metro Manila";
                      l_unit_price := price;
                      l_confidence := lit "high";
                      l_source := lit "ACE" |})
      end
  end.

(** Lines 20-50 *)
Definition fetch_price_ace (item_keywords : str) : M (option listing) :=
  _ <- emit CallAce ;;
  ret (or_none (ace_try item_keywords)).

(** Lines 55-79: the body of the [try] of [fetch_price_wilcon]. *)
Definition wilcon_try (item_keywords : str) : res (option listing) :=
  let! soup := get_wilcon w item_keywords in
  match soup with
  | None => ok None
  | Some c =>
      let title := match title_text c with
                   | Some t => t
                   | None => item_keywords
                   end in
      match price_text c with
      | None => ok None
      | Some price_text =>
          let! price := scraped_price price_text in
          ok (Some {| l_store := lit "Wilcon Depot â€“ " ++ title;
                      l_address := lit "Various Wilcon branches in Metro Manila";
                      l_unit_price := price;
                      l_confidence := lit "high";
                      l_source := lit "Wilcon" |})
      end
  end.

(** Lines 53-83 *)
Definition fetch_price_wilcon (item_keywords : str) : M (option listing) :=
  _ <- emit CallWilcon ;;
  ret (or_none (wilcon_try item_keywords)).

(** Lines 88-121: the body of the [try] of [fetch_price_shopee]. *)
Definition shopee_try (item_keywords : str) : res (option listing) :=
  let! data := get_shopee w item_keywords in
  let! items := py_get data (lit "items") JNull in
  if negb (truthy items) then ok None
  else
    let! first := py_first items in
    let! item := py_getitem first (lit "item_basic") in
    let! name := py_get item (lit "name") (JStr item_keywords) in
    let! raw := py_get item (lit "price") (JInt 0) in
    let! price := py_truediv raw 100000 in
    if (price <=? 0)%float then ok None
    else
      let! shown := py_slice_format name 60 in
      ok (Some {| l_store := lit "Shopee â€“ " ++ shown;
                  l_address := lit "Online / Philippines";
                  l_unit_price := price;
                  l_confidence := lit "high";
                  l_source := lit "Shopee" |}).

(** Lines 86-125 *)
Definition fetch_price_shopee (item_keywords : str) : M (option listing) :=
  _ <- emit CallShopee ;;
  ret (or_none (shopee_try item_keywords)).

(** Lines 147-150: the adapter's [dict] gets [quantity] and [total_price]. *)
Definition stamp (l : listing) (quantity : Z) : res quote :=
  let! total := float_mul_int (l_unit_price l) quantity in
  ok {| store := JStr (l_store l);
        address := JStr (l_address l);
        unit_price := l_unit_price l;
        quantity := quantity;
        total_price := total;
        confidence := JStr (l_confidence l);
        source := l_source l |}.

(** Lines 145-153: [for fetch_func in [...]], with its [break]. *)
Fixpoint adapter_loop (funcs : list (str -> M (option listing)))
    (item : str) (quantity : Z) (results : list quote) : M (list quote) :=
  match funcs with
  | [] => ret results
  | fetch_func :: rest =>
      r <- fetch_func item ;;
      results <- match r with
                 | Some l => q <- lift (stamp l quantity) ;; ret (results ++ [q])
                 | None => ret results
                 end ;;
      if (3 <=? List.length results)%nat then ret results
      else adapter_loop rest item quantity results
  end.

(** Lines 183-189: the JSON array cut out of the model's answer. *)
Definition extract_ai_stores (ai_str : str) : res json :=
  let start := find 91 ai_str in
  let end_ := rfind 93 ai_str in
  if negb (start =? -1)%Z && negb (end_ =? -1)%Z && (end_ >? start)%Z
  then
    let json_str := slice start (end_ + 1) ai_str in
    match json_loads json_str with
    | Some v => ok v
    | None => raise JSONDecodeError
    end
  else ok (JArr []).

(** Line 196: [float(s.get("price", 0))]. *)
Definition ai_price_try (s : json) : res float :=
  let! p := py_get s (lit "price") (JInt 0) in
  py_float p.

(** Lines 195-198: the price of an AI entry, 0 when line 196 raises. *)
Definition ai_price (s : json) : float :=
  match ai_price_try s with
  | inr x => x
  | inl _ => 0%float
  end.

(** Lines 203-211: the entry appended for an AI store. *)
Definition ai_quote (s : json) (price : float) (quantity : Z) : res quote :=
  let! st := py_get s (lit "store") (JStr (lit "Unknown Store")) in
  let! ad := py_get s (lit "address") (JStr (lit "Manila")) in
  let! total := float_mul_int price quantity in
  let! co := py_get s (lit "confidence") (JStr (lit "medium")) in
  ok {| store := st;
        address := ad;
        unit_price := price;
        quantity := quantity;
        total_price := total;
        confidence := co;
        source := lit "AI" |}.

(** Lines 191-211: [for s in ai_stores], with its [break] and [continue]. *)
Fixpoint merge_ai (ai_stores : list json) (quantity : Z) (results : list quote)
  : res (list quote) :=
  match ai_stores with
  | [] => ok results
  | s :: rest =>
      if (3 <=? List.length results)%nat then ok results
      else
        let price := ai_price s in
        if (price <=? 0)%float then merge_ai rest quantity results
        else
          let! q := ai_quote s price quantity in
          merge_ai rest quantity (results ++ [q])
  end.

(** Line 180: [content], or the empty string when it is [None]. *)
Definition content_text (content : option str) : str :=
  match content with
  | Some c => c
  | None => []
  end.

(** Lines 156-211: the AI fallback. *)
Definition ai_fallback (item : str) (quantity : Z) (results : list quote)
  : M (list quote) :=
  _ <- emit CallAI ;;
  content <- lift (chat w item) ;;
  let ai_str := strip (content_text content) in
  ai_stores <- lift (extract_ai_stores ai_str) ;;
  elems <- lift (py_iter ai_stores) ;;
  lift (merge_ai elems quantity results).

(** Line 135: [request.get_json(silent=True) or {}]; [body] is what
    [get_json] returns, [None] for a body that is not JSON. *)
Definition request_data (body : option json) : json :=
  py_or (match body with Some v => v | None => JNull end) (JObj []).

(** Line 136: [data.get("item")], or the empty string when that is falsy,
    stripped. *)
Definition request_item (body : option json) : res str :=
  let! i := py_get (request_data body) (lit "item") JNull in
  py_strip (py_or i (JStr [])).

(** Line 137: [int(data.get("quantity") or 1)] *)
Definition request_quantity (body : option json) : res Z :=
  let! q := py_get (request_data body) (lit "quantity") JNull in
  py_int (py_or q (JInt 1)).

(** Lines 136-137, in that order. *)
Definition request_fields (body : option json) : res (str * Z) :=
  let! item := request_item body in
  let! quantity := request_quantity body in
  ok (item, quantity).

(** Line 145: the adapters, in the order they are tried. *)
Definition fetch_funcs : list (str -> M (option listing)) :=
  [fetch_price_wilcon; fetch_price_ace; fetch_price_shopee].

(** Lines 142-211: [results] as it stands before line 213. *)
Definition collect_quotes (item : str) (quantity : Z) : M (list quote) :=
  results <- adapter_loop fetch_funcs item quantity [] ;;
  if (List.length results <? 3)%nat
  then ai_fallback item quantity results
  else ret results.

(** Lines 135-214: the body of the [try]. *)
Definition get_stores_try (body : option json) : M response :=
  f <- lift (request_fields body) ;;
  let item := fst f in
  let quantity := snd f in
  match item with
  | [] => ret ItemRequired
  | _ =>
      results <- collect_quotes item quantity ;;
      ret (Stores (firstn 3 results))
  end.

(** [get_stores]: the response, and the calls made to the outside world. *)
Definition get_stores (body : option json) : response * trace :=
  match get_stores_try body [] with
  | (inr r, t) => (r, t)
  | (inl e, t) => (ServerError e, t)
  end.

End App.

(* ===================================================================== *)
(** * A reference interpreter for the conversions

    Executable definitions of the four [Builtins], after CPython, used to
    run the model on concrete requests. The general theorems below hold for
    every [Builtins] and do not depend on them. Not modelled: decimal digits
    outside ASCII in [float] and [int], the interpreter's limits on the
    length of an integer literal and on nesting depth, and the Unicode
    tables behind [repr] of a [str] (code points from 256 up are taken as
    printable). *)
(* ===================================================================== *)

Module CPython.

Definition is_digit (c : N) : bool := ((48 <=? c) && (c <=? 57))%N.

(** [Py_ISSPACE]: the ASCII whitespace the number parsers skip. *)
Definition is_c_space (c : N) : bool := ((9 <=? c) && (c <=? 13) || (c =? 32))%N.

(** Before parsing, whitespace outside ASCII becomes a space and any other
    character from 127 up becomes a question mark. *)
Definition to_ascii (c : N) : N :=
  if (c <? 127)%N then c else if isspace c then 32%N else 63%N.

Fixpoint c_lstrip (s : str) : str :=
  match s with
  | c :: r => if is_c_space c then c_lstrip r else s
  | [] => []
  end.

Definition c_strip (s : str) : str := rev (c_lstrip (rev (c_lstrip s))).

(** Underscores may only stand between two digits; [prev] is the previous
    character (0 at the start). The result is the text without them. *)
Fixpoint drop_underscores (prev : N) (s : str) : option str :=
  match s with
  | [] => if (prev =? 95)%N then None else Some []
  | c :: r =>
      if (c =? 95)%N
      then if is_digit prev then drop_underscores c r else None
      else if (prev =? 95)%N && negb (is_digit c) then None
           else match drop_underscores c r with
                | Some t => Some (c :: t)
                | None => None
                end
  end.

Fixpoint take_digits (s : str) : list N * str :=
  match s with
  | c :: r =>
      if is_digit c
      then let (d, t) := take_digits r in (c :: d, t)
      else ([], s)
  | [] => ([], [])
  end.

Definition digits_value (ds : list N) : Z :=
  fold_left (fun a d => (a * 10 + (Z.of_N d - 48))%Z) ds 0%Z.

Definition take_sign (s : str) : bool * str :=
  match s with
  | 45%N :: r => (true, r)
  | 43%N :: r => (false, r)
  | _ => (false, s)
  end.

Definition lower (c : N) : N :=
  if ((65 <=? c) && (c <=? 90))%N then (c + 32)%N else c.

(** A decimal literal without sign: digits, an optional fraction, an
    optional exponent; [None] unless the whole text is one. *)
Definition decimal_literal (neg : bool) (s : str) : option float :=
  let (ip, s1) := take_digits s in
  let (fp, s2) := match s1 with
                  | 46%N :: r => take_digits r
                  | _ => ([], s1)
                  end in
  match ip ++ fp with
  | [] => None
  | ds =>
      let m := digits_value ds in
      let shift := Z.of_nat (List.length fp) in
      match s2 with
      | [] => Some (float_of_decimal neg m (- shift))
      | c :: r =>
          if (lower c =? 101)%N
          then let (eneg, r1) := take_sign r in
               let (ed, r2) := take_digits r1 in
               match ed, r2 with
               | _ :: _, [] =>
                   let e := digits_value ed in
                   Some (float_of_decimal neg m
                           ((if eneg then - e else e) - shift))
               | _, _ => None
               end
          else None
      end
  end.

Definition float_literal (s : str) : option float :=
  let (neg, body) := take_sign s in
  let word := map lower body in
  if str_eqb word (lit "inf") || str_eqb word (lit "infinity")
  then Some (if neg then neg_infinity else infinity)
  else if str_eqb word (lit "nan") then Some nan
  else decimal_literal neg body.

(** [float(s)] *)
Definition float_of_str (s : str) : option float :=
  match drop_underscores 0 (c_strip (map to_ascii s)) with
  | Some t => float_literal t
  | None => None
  end.

(** [int(s)] *)
Definition int_of_str (s : str) : option Z :=
  match drop_underscores 0 (snd (take_sign (c_strip (map to_ascii s)))) with
  | Some (c :: t) =>
      match take_digits (c :: t) with
      | (ds, []) =>
          let v := digits_value ds in
          Some (if fst (take_sign (c_strip (map to_ascii s))) then (- v)%Z else v)
      | _ => None
      end
  | _ => None
  end.

(** ** [json.loads] *)

(** [dict[k] = v]: a key already present keeps its place. *)
Fixpoint dict_set (k : str) (v : json) (kv : list (str * json))
  : list (str * json) :=
  match kv with
  | [] => [(k, v)]
  | (k', v') :: r =>
      if str_eqb k k' then (k, v) :: r else (k', v') :: dict_set k v r
  end.

Definition is_json_space (c : N) : bool :=
  ((c =? 32) || (c =? 9) || (c =? 10) || (c =? 13))%N.

Fixpoint skip_ws (s : str) : str :=
  match s with
  | c :: r => if is_json_space c then skip_ws r else s
  | [] => []
  end.

Definition hex_value (c : N) : option N :=
  if is_digit c then Some (c - 48)%N
  else if ((97 <=? c) && (c <=? 102))%N then Some (c - 87)%N
  else if ((65 <=? c) && (c <=? 70))%N then Some (c - 55)%N
  else None.

(** The four hexadecimal digits of a [\uXXXX] escape. *)
Definition hex4 (s : str) : option (N * str) :=
  match s with
  | a :: b :: c :: d :: r =>
      match hex_value a, hex_value b, hex_value c, hex_value d with
      | Some x, Some y, Some z, Some t =>
          Some (x * 4096 + y * 256 + z * 16 + t, r)%N
      | _, _, _, _ => None
      end
  | _ => None
  end.

Definition simple_escape (c : N) : option N :=
  match c with
  | 34 => Some 34 | 92 => Some 92 | 47 => Some 47
  | 98 => Some 8 | 102 => Some 12 | 110 => Some 10
  | 114 => Some 13 | 116 => Some 9
  | _ => None
  end%N.

(** The text of a string after its opening quote: the characters up to the
    closing quote, escapes decoded, and what follows the quote. *)
Fixpoint scan_string (fuel : nat) (s : str) : option (str * str) :=
  match fuel with
  | O => None
  | S fuel' =>
      let more c r := match scan_string fuel' r with
                      | Some (t, rest) => Some (c :: t, rest)
                      | None => None
                      end in
      match s with
      | [] => None
      | 34%N :: r => Some ([], r)
      | 92%N :: 117%N :: r =>
          match hex4 r with
          | None => None
          | Some (c, r1) =>
              if ((55296 <=? c) && (c <=? 56319))%N
              then
                match r1 with
                | 92%N :: 117%N :: r2 =>
                    if (7 <=? List.length r1)%nat
                    then match hex4 r2 with
                         | None => None
                         | Some (c2, r3) =>
                             if ((56320 <=? c2) && (c2 <=? 57343))%N
                             then more (65536 + (c - 55296) * 1024
                                        + (c2 - 56320))%N r3
                             else more c r1
                         end
                    else more c r1
                | _ => more c r1
                end
              else more c r1
          end
      | 92%N :: e :: r =>
          match simple_escape e with
          | Some c => more c r
          | None => None
          end
      | 92%N :: [] => None
      | c :: r => if (c <? 32)%N then None else more c r
      end
  end.

(** A number at the start of [s]: an optional minus, an integer part
    without leading zero, an optional fraction, an optional exponent. *)
Definition scan_number (s : str) : option (json * str) :=
  let (neg, s0) := match s with
                   | 45%N :: r => (true, r)
                   | _ => (false, s)
                   end in
  let (ip, s1) := match s0 with
                  | 48%N :: r => ([48%N], r)
                  | _ => take_digits s0
                  end in
  match ip with
  | [] => None
  | _ =>
      let (fp, s2) := match s1 with
                      | 46%N :: r =>
                          match take_digits r with
                          | ([], _) => ([], s1)
                          | (d, t) => (d, t)
                          end
                      | _ => ([], s1)
                      end in
      let '(ex, s3) := match s2 with
                       | c :: r =>
                           if (lower c =? 101)%N
                           then let (eneg, r1) := take_sign r in
                                match take_digits r1 with
                                | ([], _) => (None, s2)
                                | (d, t) =>
                                    (Some (if eneg then (- digits_value d)%Z
                                           else digits_value d), t)
                                end
                           else (None, s2)
                       | [] => (None, s2)
                       end in
      let shift := Z.of_nat (List.length fp) in
      match fp, ex with
      | [], None =>
          Some (JInt (if neg then (- digits_value ip)%Z else digits_value ip), s3)
      | _, _ =>
          Some (JFloat (float_of_decimal neg (digits_value (ip ++ fp))
                          (match ex with Some e => e | None => 0%Z end - shift)),
                s3)
      end
  end.

Definition after (p s : str) : option str :=
  if startswith p s then Some (skipn (List.length p) s) else None.

(** A constant or a number at the start of [s]. *)
Definition scan_atom (s : str) : option (json * str) :=
  match after (lit "null") s with
  | Some r => Some (JNull, r)
  | None =>
  match after (lit "true") s with
  | Some r => Some (JBool true, r)
  | None =>
  match after (lit "false") s with
  | Some r => Some (JBool false, r)
  | None =>
  match after (lit "NaN") s with
  | Some r => Some (JFloat nan, r)
  | None =>
  match after (lit "Infinity") s with
  | Some r => Some (JFloat infinity, r)
  | None =>
  match after (lit "-Infinity") s with
  | Some r => Some (JFloat neg_infinity, r)
  | None => scan_number s
  end end end end end end.

(** A value at the start of [s], and what follows it. *)
Fixpoint scan_value (fuel : nat) (s : str) : option (json * str) :=
  match fuel with
  | O => None
  | S fuel' =>
      match s with
      | 34%N :: r =>
          match scan_string (S (List.length r)) r with
          | Some (t, rest) => Some (JStr t, rest)
          | None => None
          end
      | 91%N :: r =>
          match skip_ws r with
          | 93%N :: rest => Some (JArr [], rest)
          | r1 => scan_elements fuel' [] r1
          end
      | 123%N :: r =>
          match skip_ws r with
          | 125%N :: rest => Some (JObj [], rest)
          | r1 => scan_members fuel' [] r1
          end
      | _ => scan_atom s
      end
  end

with scan_elements (fuel : nat) (acc : list json) (s : str)
  : option (json * str) :=
  match fuel with
  | O => None
  | S fuel' =>
      match scan_value fuel' s with
      | None => None
      | Some (v, r) =>
          match skip_ws r with
          | 93%N :: rest => Some (JArr (rev (v :: acc)), rest)
          | 44%N :: rest => scan_elements fuel' (v :: acc) (skip_ws rest)
          | _ => None
          end
      end
  end

with scan_members (fuel : nat) (acc : list (str * json)) (s : str)
  : option (json * str) :=
  match fuel with
  | O => None
  | S fuel' =>
      match s with
      | 34%N :: r =>
          match scan_string (S (List.length r)) r with
          | None => None
          | Some (k, r1) =>
              match skip_ws r1 with
              | 58%N :: r2 =>
                  match scan_value fuel' (skip_ws r2) with
                  | None => None
                  | Some (v, r3) =>
                      match skip_ws r3 with
                      | 125%N :: rest => Some (JObj (dict_set k v acc), rest)
                      | 44%N :: rest =>
                          scan_members fuel' (dict_set k v acc) (skip_ws rest)
                      | _ => None
                      end
                  end
              | _ => None
              end
          end
      | _ => None
      end
  end.

(** [json.loads(s)]: one value between optional whitespace, nothing after. *)
Definition json_loads (s : str) : option json :=
  match scan_value (2 * List.length s + 2) (skip_ws s) with
  | Some (v, r) => match skip_ws r with [] => Some v | _ => None end
  | None => None
  end.

(** ** [str] of a list: the [repr] of its elements *)

Fixpoint pos_digits (fuel : nat) (z : Z) (acc : str) : str :=
  match fuel with
  | O => acc
  | S fuel' =>
      let acc' := (Z.to_N (z mod 10) + 48)%N :: acc in
      if (z <? 10)%Z then acc' else pos_digits fuel' (z / 10) acc'
  end.

(** The decimal digits of [z >= 0]. *)
Definition nat_digits (z : Z) : str :=
  pos_digits (S (Z.to_nat (Z.log2 z))) z [].

Definition int_repr (z : Z) : str :=
  if (z <? 0)%Z then 45%N :: nat_digits (- z) else nat_digits z.

(** [floor (m * 2^e / 10^p)] and whether the division is exact, then
    whether the remainder is below, at or above one half. *)
Definition scaled (m e p : Z) : Z * comparison * bool :=
  let num := (m * 2 ^ Z.max e 0 * 10 ^ Z.max (- p) 0)%Z in
  let den := (2 ^ Z.max (- e) 0 * 10 ^ Z.max p 0)%Z in
  (num / den, (2 * (num mod den) ?= den)%Z, (num mod den =? 0)%Z)%Z.

(** The largest [k] with [10^k <= m * 2^e], searched upwards from a [k]
    that is not above it. *)
Fixpoint decimal_exponent (fuel : nat) (m e k : Z) : Z :=
  match fuel with
  | O => k
  | S fuel' =>
      if (fst (fst (scaled m e (k + 1))) =? 0)%Z then k
      else decimal_exponent fuel' m e (k + 1)
  end.

(** The shortest decimal [c * 10^p] that reads back as [x = m * 2^e], the
    closest to [x] among the shortest; [n] is the number of digits tried. *)
Fixpoint shortest (fuel : nat) (x : float) (m e k : Z) (n : Z) : Z * Z :=
  let p := (k - n + 1)%Z in
  let '(lo, half, exact) := scaled m e p in
  let hi := (lo + 1)%Z in
  let back c := (float_of_decimal false c p =? x)%float in
  match fuel with
  | O => (lo, p)
  | S fuel' =>
      if exact then (lo, p)
      else
        match back lo, back hi with
        | true, true =>
            match half with
            | Lt => (lo, p)
            | Gt => (hi, p)
            | Eq => (if Z.even lo then lo else hi, p)
            end
        | true, false => (lo, p)
        | false, true => (hi, p)
        | false, false => shortest fuel' x m e k (n + 1)
        end
  end.

Fixpoint strip_zeros (fuel : nat) (c p : Z) : Z * Z :=
  match fuel with
  | O => (c, p)
  | S fuel' =>
      if (c mod 10 =? 0)%Z then strip_zeros fuel' (c / 10) (p + 1) else (c, p)
  end.

Definition zeros (n : Z) : str := repeat 48%N (Z.to_nat n).

(** Digits [ds] with the decimal point after the first [decpt] of them, as
    [repr] lays a float out. *)
Definition float_layout (ds : str) (decpt : Z) : str :=
  let len := Z.of_nat (List.length ds) in
  if ((decpt <=? -4) || (16 <? decpt))%Z
  then
    let e := (decpt - 1)%Z in
    let mant := match ds with
                | d :: [] => [d]
                | d :: r => d :: 46%N :: r
                | [] => []
                end in
    let ed := nat_digits (Z.abs e) in
    mant ++ [101%N] ++ [if (e <? 0)%Z then 45%N else 43%N]
         ++ (if (Z.abs e <? 10)%Z then 48%N :: ed else ed)
  else if (decpt <=? 0)%Z then lit "0." ++ zeros (- decpt) ++ ds
  else if (len <=? decpt)%Z then ds ++ zeros (decpt - len) ++ lit ".0"
  else firstn (Z.to_nat decpt) ds ++ [46%N] ++ skipn (Z.to_nat decpt) ds.

Definition float_repr (x : float) : str :=
  match Prim2SF x with
  | S754_nan => lit "nan"
  | S754_infinity s => if s then lit "-inf" else lit "inf"
  | S754_zero s => if s then lit "-0.0" else lit "0.0"
  | S754_finite s m e =>
      let a := abs x in
      let bits := (Z.log2 (Zpos m) + e)%Z in
      let k := decimal_exponent 4 (Zpos m) e (bits * 30103 / 100000 - 1) in
      let (c0, p0) := shortest 17 a (Zpos m) e k 1 in
      let (c, p) := strip_zeros 20 c0 p0 in
      let ds := nat_digits c in
      let body := float_layout ds (Z.of_nat (List.length ds) + p) in
      if s then 45%N :: body else body
  end.

Definition hex_digit (n : N) : N := if (n <? 10)%N then (n + 48)%N else (n + 87)%N.

(** One character inside the quotes of [repr] of a [str]. *)
Definition char_repr (q : N) (c : N) : str :=
  if ((c =? q) || (c =? 92))%N then [92%N; c]
  else if (c =? 9)%N then lit "\t"
  else if (c =? 10)%N then lit "\n"
  else if (c =? 13)%N then lit "\r"
  else if ((c <? 32) || (127 <=? c) && (c <=? 160) || (c =? 173))%N
       then lit "\x" ++ [hex_digit (c / 16); hex_digit (c mod 16)]
  else [c].

Definition str_repr (s : str) : str :=
  let q := if existsb (N.eqb 39) s && negb (existsb (N.eqb 34) s)
           then 34%N else 39%N in
  [q] ++ flat_map (char_repr q) s ++ [q].

Definition join (sep : str) (parts : list str) : str :=
  match parts with
  | [] => []
  | p :: r => p ++ flat_map (fun x => sep ++ x) r
  end.

Fixpoint py_repr (v : json) : str :=
  match v with
  | JNull => lit "None"
  | JBool b => if b then lit "True" else lit "False"
  | JInt z => int_repr z
  | JFloat x => float_repr x
  | JStr s => str_repr s
  | JArr l => lit "[" ++ join (lit ", ") (map py_repr l) ++ lit "]"
  | JObj kv =>
      lit "{"
      ++ join (lit ", ")
           (map (fun p => str_repr (fst p) ++ lit ": " ++ py_repr (snd p)) kv)
      ++ lit "}"
  end.

Definition str_of_list (l : list json) : str := py_repr (JArr l).

End CPython.

(** The reference interpreter as an instance of the interface. *)
Definition cpython : Builtins :=
  {| float_of_str := CPython.float_of_str;
     int_of_str := CPython.int_of_str;
     json_loads := CPython.json_loads;
     str_of_list := CPython.str_of_list |}.

(* ===================================================================== *)
(** * Concrete worlds and requests *)
(* ===================================================================== *)

Module Scenario.

(** Every service is down. *)
Definition offline : World :=
  {| get_wilcon := fun _ => raise ServiceError;
     get_ace := fun _ => raise ServiceError;
     get_shopee := fun _ => raise ServiceError;
     chat := fun _ => raise ServiceError |}.

(** Only Wilcon answers, with one card whose price element reads [price]. *)
Definition wilcon_only (price : str) : World :=
  {| get_wilcon := fun _ => ok (Some {| title_text := Some (lit "Hammer");
                                         price_text := Some price |});
     get_ace := fun _ => raise ServiceError;
     get_shopee := fun _ => raise ServiceError;
     chat := fun _ => ok None |}.

(** Only ACE answers, likewise. *)
Definition ace_only (price : str) : World :=
  {| get_wilcon := fun _ => raise ServiceError;
     get_ace := fun _ => ok (Some {| title_text := None;
                                      price_text := Some price |});
     get_shopee := fun _ => raise ServiceError;
     chat := fun _ => ok None |}.

(** Only Shopee answers, with one item of the given raw price. *)
Definition shopee_only (raw : json) : World :=
  {| get_wilcon := fun _ => raise ServiceError;
     get_ace := fun _ => raise ServiceError;
     get_shopee := fun _ =>
       ok (JObj [(lit "items",
                  JArr [JObj [(lit "item_basic",
                               JObj [(lit "name", JStr (lit "Claw hammer"));
                                     (lit "price", raw)])]])]);
     chat := fun _ => ok None |}.

(** No shop answers, and the chat model replies [answer]. *)
Definition ai_only (answer : str) : World :=
  {| get_wilcon := fun _ => raise ServiceError;
     get_ace := fun _ => raise ServiceError;
     get_shopee := fun _ => raise ServiceError;
     chat := fun _ => ok (Some answer) |}.

(** The body [{"item": item, "quantity": quantity}]. *)
Definition request (item : str) (quantity : json) : option json :=
  Some (JObj [(lit "item", JStr item); (lit "quantity", quantity)]).

(** The body [{"item": item}]. *)
Definition request_item_only (item : str) : option json :=
  Some (JObj [(lit "item", JStr item)]).

(** A double quote, for the JSON texts below. *)
Definition dq : str := [34%N].

(** [Here is the data: [{"store":"X","price":10,"address":"Manila",
    "confidence":"low"}] Thanks] *)
Definition answer_one : str :=
  lit "Here is the data: [{" ++ dq ++ lit "store" ++ dq ++ lit ":" ++ dq
  ++ lit "X" ++ dq ++ lit "," ++ dq ++ lit "price" ++ dq ++ lit ":10,"
  ++ dq ++ lit "address" ++ dq ++ lit ":" ++ dq ++ lit "Manila" ++ dq
  ++ lit "," ++ dq ++ lit "confidence" ++ dq ++ lit ":" ++ dq ++ lit "low"
  ++ dq ++ lit "}] Thanks".

(** [[{"price":1},{"price":2},{"price":3},{"price":4}]] *)
Definition answer_four : str :=
  lit "[{" ++ dq ++ lit "price" ++ dq ++ lit ":1},{" ++ dq ++ lit "price"
  ++ dq ++ lit ":2},{" ++ dq ++ lit "price" ++ dq ++ lit ":3},{" ++ dq
  ++ lit "price" ++ dq ++ lit ":4}]".

Definition hammer : option json := request_item_only (lit "hammer").

Definition shops_down : trace := [CallWilcon; CallAce; CallShopee].

(** The quotes the adapter loop ends with. *)
Definition adapter_results (W : World) (item : str) (quantity : Z)
  : list quote :=
  match fst (adapter_loop (fetch_funcs (B := cpython) W) item quantity [] []) with
  | inr l => l
  | inl _ => []
  end.

(** The quotes of a response. *)
Definition stores_of (r : response) : list quote :=
  match r with
  | Stores l => l
  | _ => []
  end.

End Scenario.


(** How many times a trace calls the chat model. *)
Definition call_eq_dec (a b : call) : {a = b} + {a <> b}.
Proof. decide equality. Defined.

Definition ai_calls (t : trace) : nat := count_occ call_eq_dec t CallAI.

(** [total_price == unit_price * quantity], as Python evaluates the product:
    the [int] is converted to a double, then the doubles are multiplied. *)
Definition priced (quantity0 : Z) (q : quote) : Prop :=
  quantity q = quantity0 /\
  exists d, float_of_int quantity0 = ok d /\
            total_price q = (unit_price q * d)%float.

(** An element of the parsed array that is not an object with a price
    [float] accepts: not a [dict] at all, a [dict] without ["price"], or one
    whose ["price"] makes [float] raise. *)
Definition no_coercible_price {B : Builtins} (s : json) : Prop :=
  match s with
  | JObj kv =>
      match lookup (lit "price") kv with
      | Some p => exists e, py_float p = inl e
      | None => True
      end
  | _ => True
  end.

(** The brackets line 185 looks for are found, the last "]" after the
    first "[". *)
Definition bracket_pair (ai_str : str) : Prop :=
  find 91 ai_str <> (-1)%Z /\ rfind 93 ai_str <> (-1)%Z
  /\ (find 91 ai_str < rfind 93 ai_str)%Z.

(** The text line 187 hands to [json.loads]. *)
Definition json_str (ai_str : str) : str :=
  slice (find 91 ai_str) (rfind 93 ai_str + 1) ai_str.

(** The request is well formed, the adapter phase ends with [results],
    fewer than 3, after the calls [t], and the chat model answers. *)
Definition reaches_ai {B : Builtins} (w : World) (body : option json)
    (item : str) (quantity : Z) (results : list quote) (t : trace)
    (content : option str) : Prop :=
  request_fields body = ok (item, quantity) /\ item <> [] /\
  adapter_loop (fetch_funcs w) item quantity [] [] = (ok results, t) /\
  List.length results < 3 /\
  chat w item = ok content.

(** An adapter as [adapter_loop] needs it: it returns, and calls no chat
    model. *)
Definition quiet (f : str -> M (option listing)) : Prop :=
  forall item t, exists r t',
    f item t = (ok r, t ++ t') /\ ~ In CallAI t'.

(* ===================================================================== *)
(** * What the adapters and the AI loop contribute *)
(* ===================================================================== *)

Section Contributions.
Context {B : Builtins}.
Variable w : World.

(** The listing an adapter returned, if it returned one. *)
Definition found (r : option listing) : list listing :=
  match r with
  | Some l => [l]
  | None => []
  end.

(** What the three adapters return for [item], in the order of line 145. *)
Definition adapter_listings (item : str) : list listing :=
  found (or_none (wilcon_try w item))
  ++ found (or_none (ace_try w item))
  ++ found (or_none (shopee_try w item)).

(** Lines 148-149 on a listing, [d] being the quantity as a double. *)
Definition stamped (quantity : Z) (d : float) (l : listing) : quote :=
  {| store := JStr (l_store l);
     address := JStr (l_address l);
     unit_price := l_unit_price l;
     quantity := quantity;
     total_price := (l_unit_price l * d)%float;
     confidence := JStr (l_confidence l);
     source := l_source l |}.

(** Line 200: the entry is not skipped. *)
Definition ai_kept (s : json) : bool := negb (ai_price s <=? 0)%float.

(** [s.get(k, default)] on an entry, [default] also when [s] is no [dict]. *)
Definition entry_field (s : json) (k : str) (default : json) : json :=
  match s with
  | JObj kv => match lookup k kv with Some x => x | None => default end
  | _ => default
  end.

(** Lines 203-211 on an entry, [d] being the quantity as a double. *)
Definition ai_stamped (quantity : Z) (d : float) (s : json) : quote :=
  {| store := entry_field s (lit "store") (JStr (lit "Unknown Store"));
     address := entry_field s (lit "address") (JStr (lit "Manila"));
     unit_price := ai_price s;
     quantity := quantity;
     total_price := (ai_price s * d)%float;
     confidence := entry_field s (lit "confidence") (JStr (lit "medium"));
     source := lit "AI" |}.

(** The calls of an adapter phase that runs to its end. *)
Definition three_shops : trace := [CallWilcon; CallAce; CallShopee].

(** Where a quote comes from, and what its origin ensures: a scraper quote
    has confidence "high"; a Shopee quote has it too and passed the test of
    line 112; an AI quote passed the test of line 200. *)
Definition sourced (q : quote) : Prop :=
  ((source q = lit "Wilcon" \/ source q = lit "ACE")
   /\ confidence q = JStr (lit "high"))
  \/ (source q = lit "Shopee" /\ confidence q = JStr (lit "high")
      /\ (unit_price q <=? 0)%float = false)
  \/ (source q = lit "AI" /\ (unit_price q <=? 0)%float = false).

End Contributions.

(* ===================================================================== *)
(** * The question generator *)
(* ===================================================================== *)

Inductive questions_response : Type :=
| Questions (questions : json)   (* 200, {"questions": questions} *)
| DescriptionRequired            (* 400, {"error": "Description is required"} *)
| QuestionsError (e : pyexn).    (* 500, {"error": str(e)} *)

Section Questions.
Context {B : Builtins}.

(** [ask description]: [client.chat.completions.create] with the fixed prompt
    of [generate_questions] around [description], and the [content] of its
    first choice. *)
Variable ask : str -> res (option str).

(** Line 298: [data.get("description", "").strip()]; the default stands in
    for a missing key only. *)
Definition request_description (body : option json) : res str :=
  let! d := py_get (request_data body) (lit "description") (JStr []) in
  py_strip d.

(** Line 329: [content.strip()]; [None] has no such method. *)
Definition answer_text (content : option str) : res str :=
  match content with
  | Some c => ok (strip c)
  | None => raise AttributeError
  end.

(** Lines 331-337: the JSON cut out of the answer. *)
Definition extract_questions (ai_text : str) : res json :=
  let start := find 91 ai_text in
  let end_ := rfind 93 ai_text in
  if (start =? -1)%Z || (end_ =? -1)%Z then ok (JArr [])
  else
    match json_loads (slice start (end_ + 1) ai_text) with
    | Some v => ok v
    | None => raise JSONDecodeError
    end.

(** Lines 297-339: the body of the [try]. *)
Definition generate_questions_try (body : option json) : M questions_response :=
  description <- lift (request_description body) ;;
  match description with
  | [] => ret DescriptionRequired
  | _ =>
      _ <- emit CallAI ;;
      content <- lift (ask description) ;;
      ai_text <- lift (answer_text content) ;;
      questions <- lift (extract_questions ai_text) ;;
      ret (Questions questions)
  end.

(** [generate_questions]: the response, and the calls made. *)
Definition generate_questions (body : option json)
  : questions_response * trace :=
  match generate_questions_try body [] with
  | (inr r, t) => (r, t)
  | (inl e, t) => (QuestionsError e, t)
  end.

End Questions.

(* ===================================================================== *)
(** * The purchase request *)
(* ===================================================================== *)

(** How [submit_pr] turns values into text, taken as given:
    - [str_of v] is [str(v)] for a value that is no [str];
    - [money x] is [f"{x:,.2f}"] for a [float]. *)
Class Formatting : Type := {
  str_of : json -> str;
  money : float -> str
}.

(** The files and the clock [submit_pr] reads and writes:
    - [template_exists name]: [os.path.exists] on [name] joined to the
      working directory;
    - [open_template name]: [Document] on that path, and the texts of its
      [paragraphs];
    - [today]: [datetime.now().strftime("%B %d, %Y")];
    - [save paragraphs]: [doc.save] on a temporary file, and [send_file]. *)
Record Office : Type := {
  template_exists : str -> bool;
  open_template : str -> res (list str);
  today : str;
  save : list str -> res unit
}.

(** The request: a JSON body ([request.is_json]), or a form whose "data"
    field, when present, holds the JSON text. *)
Inductive pr_request : Type :=
| JsonRequest (body : option json)
| FormRequest (data : option str).

Inductive pr_response : Type :=
| Document (paragraphs : list str)        (* 200, the document *)
| TemplateNotFound (template_name : str)  (* 400 *)
| PrError (e : pyexn).                    (* 500 *)

(** The name line 239 reads from the fields [kv] of the request. *)
Definition template_name_of (kv : list (str * json)) : json :=
  match lookup (lit "template_name") kv with
  | Some v => v
  | None => JStr (lit "template1.docx")
  end.

(** [p in s] *)
Fixpoint contains (p s : str) : bool :=
  startswith p s
  || match s with
     | [] => false
     | _ :: r => contains p r
     end.

Section PurchaseRequest.
Context {B : Builtins} {F : Formatting}.
Variable o : Office.

(** [str(v)] *)
Definition text_of (v : json) : str :=
  match v with
  | JStr s => s
  | _ => str_of v
  end.

(** Lines 229-232 *)
Definition pr_data (r : pr_request) : res json :=
  match r with
  | JsonRequest body => ok (request_data body)
  | FormRequest data =>
      match json_loads (match data with Some s => s | None => lit "{}" end) with
      | Some v => ok v
      | None => raise JSONDecodeError
      end
  end.

(** The placeholder of a store field: two braces, the name, [str(i)], two
    braces. *)
Definition numbered (name : str) (i : Z) : str :=
  lit "{{" ++ name ++ CPython.int_repr i ++ lit "}}".

(** Lines 258-262: the placeholders of the store numbered [i]. *)
Definition fill_store (i : Z) (s : json) (text : str) : res str :=
  let! st := py_get s (lit "store") (JStr []) in
  let text := replace (numbered (lit "store") i) (text_of st) text in
  let! ad := py_get s (lit "address") (JStr []) in
  let text := replace (numbered (lit "address") i) (text_of ad) text in
  let! qn := py_get s (lit "quantity") (JStr []) in
  let text := replace (numbered (lit "quantity") i) (text_of qn) text in
  let! up := py_get s (lit "unit_price") (JInt 0) in
  let! upf := py_float up in
  let text := replace (numbered (lit "unit") i) (lit "â‚±" ++ money upf) text in
  let! tp := py_get s (lit "total_price") (JInt 0) in
  let! tpf := py_float tp in
  ok (replace (numbered (lit "total") i) (lit "â‚±" ++ money tpf) text).

(** Lines 257-262: [for i, s in enumerate(stores, start=1)], from [i] on. *)
Fixpoint fill_stores (i : Z) (stores : list json) (text : str) : res str :=
  match stores with
  | [] => ok text
  | s :: rest =>
      let! text := fill_store i s text in
      fill_stores (i + 1) rest text
  end.

(** Lines 249-265: the new text of one paragraph. *)
Definition fill_paragraph (item description purpose quantity stores : json)
    (text : str) : res str :=
  let text := replace (lit "{{item}}") (text_of item) text in
  let text := replace (lit "{{description}}") (text_of description) text in
  let text := replace (lit "{{purpose}}") (text_of purpose) text in
  let text := replace (lit "{{quantity}}") (text_of quantity) text in
  let text := replace (lit "{{date}}") (today o) text in
  let! elems := py_iter stores in
  fill_stores 1 elems text.

(** Lines 248-265: [for p in doc.paragraphs]. *)
Fixpoint fill_paragraphs (item description purpose quantity stores : json)
    (paragraphs : list str) : res (list str) :=
  match paragraphs with
  | [] => ok []
  | p :: rest =>
      let! p' := fill_paragraph item description purpose quantity stores p in
      let! rest' := fill_paragraphs item description purpose quantity stores rest in
      ok (p' :: rest')
  end.

(** Lines 228-271: the body of the [try]. *)
Definition submit_pr_try (r : pr_request) : res pr_response :=
  let! data := pr_data r in
  let! item := py_get data (lit "item") (JStr []) in
  let! description := py_get data (lit "description") (JStr []) in
  let! purpose := py_get data (lit "purpose") (JStr []) in
  let! quantity := py_get data (lit "quantity") (JStr []) in
  let! stores := py_get data (lit "stores") (JArr []) in
  let! template_name :=
    py_get data (lit "template_name") (JStr (lit "template1.docx")) in
  match template_name with
  | JStr name =>
      if negb (template_exists o name) then ok (TemplateNotFound name)
      else
        let! paragraphs := open_template o name in
        let! filled :=
          fill_paragraphs item description purpose quantity stores paragraphs in
        let! _ := save o filled in
        ok (Document filled)
  | _ => raise TypeError
  end.

(** [submit_pr] *)
Definition submit_pr (r : pr_request) : pr_response :=
  match submit_pr_try r with
  | inr x => x
  | inl e => PrError e
  end.

End PurchaseRequest.

(** ** A reference implementation of the formatting *)

Module CPythonFormat.

(** The digits of [z >= 0] with a comma before every group of three from
    the right. *)
Fixpoint group3 (fuel : nat) (z : Z) (acc : str) : str :=
  match fuel with
  | O => acc
  | S fuel' =>
      if (z <? 1000)%Z then CPython.nat_digits z ++ acc
      else
        let r := (z mod 1000)%Z in
        let pad := if (r <? 10)%Z then lit "00"
                   else if (r <? 100)%Z then lit "0" else [] in
        group3 fuel' (z / 1000) (44%N :: pad ++ CPython.nat_digits r ++ acc)
  end.

(** [x * 100] rounded to an integer, ties to even, for [x = m * 2^e]. *)
Definition cents (m e : Z) : Z :=
  let '(lo, half, exact) := CPython.scaled m e (-2) in
  if exact then lo
  else match half with
       | Lt => lo
       | Gt => (lo + 1)%Z
       | Eq => if Z.even lo then lo else (lo + 1)%Z
       end.

(** [f"{x:,.2f}"] *)
Definition money (x : float) : str :=
  match Prim2SF x with
  | S754_nan => lit "nan"
  | S754_infinity s => if s then lit "-inf" else lit "inf"
  | S754_zero s => if s then lit "-0.00" else lit "0.00"
  | S754_finite s m e =>
      let n := cents (Zpos m) e in
      let whole := (n / 100)%Z in
      let frac := (n mod 100)%Z in
      let body :=
        group3 (S (Z.to_nat (Z.log2 whole))) whole []
        ++ [46%N]
        ++ (if (frac <? 10)%Z then 48%N :: CPython.nat_digits frac
            else CPython.nat_digits frac) in
      if s then 45%N :: body else body
  end.

End CPythonFormat.

(** [str] of a value that is no [str] is its [repr]. *)
Definition cpython_format : Formatting :=
  {| str_of := CPython.py_repr;
     money := CPythonFormat.money |}.

(* ===================================================================== *)
(** * More concrete worlds *)
(* ===================================================================== *)

Module Cases.
Import Scenario.

(** The three shops answer: Wilcon at 10, ACE at 20, Shopee at 30. *)
Definition all_shops : World :=
  {| get_wilcon := fun _ => ok (Some {| title_text := Some (lit "Hammer");
                                         price_text := Some (lit "10") |});
     get_ace := fun _ => ok (Some {| title_text := None;
                                      price_text := Some (lit "20") |});
     get_shopee := fun _ =>
       ok (JObj [(lit "items",
                  JArr [JObj [(lit "item_basic",
                               JObj [(lit "name", JStr (lit "Claw hammer"));
                                     (lit "price", JInt 3000000)])]])]);
     chat := fun _ => raise ServiceError |}.

(** Shopee answers, and the chat model gives the example answer. *)
Definition shopee_and_ai : World :=
  {| get_wilcon := fun _ => raise ServiceError;
     get_ace := fun _ => raise ServiceError;
     get_shopee := get_shopee (shopee_only (JInt 123450000));
     chat := fun _ => ok (Some answer_one) |}.



(** The listing of the Shopee adapter in [shopee_only]. *)
Definition shopee_listing (raw : json) : listing :=
  match or_none (shopee_try (B := cpython) (shopee_only raw) (lit "hammer")) with
  | Some l => l
  | None => {| l_store := []; l_address := []; l_unit_price := 0;
               l_confidence := []; l_source := [] |}
  end.

(** A chat model that always answers [answer]. *)
Definition answers (answer : option str) : str -> res (option str) :=
  fun _ => ok answer.

(** The body [{"description": description}]. *)
Definition describe (description : json) : option json :=
  Some (JObj [(lit "description", description)]).

(** An office with one template, "template1.docx", of three paragraphs. *)
Definition office : Office :=
  {| template_exists := fun name => str_eqb name (lit "template1.docx");
     open_template := fun _ =>
       ok [lit "Purchase request";
           lit "Item: {{item}}, {{date}}";
           lit "{{store1}}: {{unit1}}"];
     today := lit "November 04, 2026";
     save := fun _ => ok tt |}.

(** An office whose template has no paragraph. *)
Definition blank_office : Office :=
  {| template_exists := fun _ => true;
     open_template := fun _ => ok [];
     today := lit "November 04, 2026";
     save := fun _ => ok tt |}.

(** A purchase request for a hammer with one quote. *)
Definition purchase : list (str * json) :=
  [(lit "item", JStr (lit "hammer"));
   (lit "stores",
    JArr [JObj [(lit "store", JStr (lit "Wilcon"));
                (lit "unit_price", JFloat 1234.5)]])].

(** A purchase request whose first store entry is a number. *)
Definition bad_purchase : list (str * json) :=
  [(lit "item", JStr (lit "hammer")); (lit "stores", JArr [JInt 5])].


End Cases.

(* ===================================================================== *)
(** * The request handler, step by step *)
(* ===================================================================== *)

Section Handler.
Context {B : Builtins}.
Variable w : World.

Lemma get_stores_fields_raise body e :
  request_fields body = inl e ->
  get_stores w body = (ServerError e, []).
Proof.
  intros H. unfold get_stores, get_stores_try, bind, lift. now rewrite H.
Qed.

Lemma get_stores_no_item body quantity :
  request_fields body = ok ([], quantity) ->
  get_stores w body = (ItemRequired, []).
Proof.
  intros H. unfold get_stores, get_stores_try, bind, lift. now rewrite H.
Qed.

Lemma get_stores_collect body item quantity :
  request_fields body = ok (item, quantity) ->
  item <> [] ->
  get_stores w body =
    match collect_quotes w item quantity [] with
    | (inr results, t) => (Stores (firstn 3 results), t)
    | (inl e, t) => (ServerError e, t)
    end.
Proof.
  intros H Hne. unfold get_stores, get_stores_try, bind, lift. rewrite H.
  cbn [fst snd]. destruct item as [|c item]; [congruence|].
  destruct (collect_quotes w (c :: item) quantity []) as [[e|results] t];
    reflexivity.
Qed.

Lemma request_fields_ok body item quantity :
  request_fields body = ok (item, quantity) <->
  request_item body = ok item /\ request_quantity body = ok quantity.
Proof.
  unfold request_fields, res_bind.
  destruct (request_item body) as [e|i]; [split; [discriminate|intros [? _]; discriminate]|].
  destruct (request_quantity body) as [e|q]; [split; [discriminate|intros [_ ?]; discriminate]|].
  split; [intros H; inversion H; auto | intros [H1 H2]; inversion H1; inversion H2; auto].
Qed.

Lemma collect_quotes_unfold item quantity t :
  collect_quotes w item quantity t =
    match adapter_loop (fetch_funcs w) item quantity [] t with
    | (inl e, t1) => (inl e, t1)
    | (inr results, t1) =>
        if (List.length results <? 3)%nat
        then ai_fallback w item quantity results t1
        else (ok results, t1)
    end.
Proof.
  unfold collect_quotes, bind, ret.
  destruct (adapter_loop (fetch_funcs w) item quantity [] t) as [[e|results] t1];
    [reflexivity|].
  destruct (List.length results <? 3)%nat; reflexivity.
Qed.

Lemma ai_fallback_unfold item quantity results t :
  ai_fallback w item quantity results t =
    match chat w item with
    | inl e => (inl e, t ++ [CallAI])
    | inr content =>
        match extract_ai_stores (strip (content_text content)) with
        | inl e => (inl e, t ++ [CallAI])
        | inr v =>
            match py_iter v with
            | inl e => (inl e, t ++ [CallAI])
            | inr elems => (merge_ai elems quantity results, t ++ [CallAI])
            end
        end
    end.
Proof.
  unfold ai_fallback, bind, lift, emit.
  destruct (chat w item) as [e|content]; [reflexivity|].
  destruct (extract_ai_stores _) as [e|v]; [reflexivity|].
  destruct (py_iter v) as [e|elems]; reflexivity.
Qed.

(** ** The two loops, one iteration at a time *)

Lemma adapter_loop_cons f rest item quantity results t :
  adapter_loop (f :: rest) item quantity results t =
    match f item t with
    | (inl e, t1) => (inl e, t1)
    | (inr None, t1) =>
        if (3 <=? List.length results)%nat then (ok results, t1)
        else adapter_loop rest item quantity results t1
    | (inr (Some l), t1) =>
        match stamp l quantity with
        | inl e => (inl e, t1)
        | inr q =>
            if (3 <=? List.length (results ++ [q]))%nat
            then (ok (results ++ [q]), t1)
            else adapter_loop rest item quantity (results ++ [q]) t1
        end
    end.
Proof.
  change (adapter_loop (f :: rest) item quantity results t)
    with (bind (f item)
            (fun r =>
               bind (match r with
                     | Some l => bind (lift (stamp l quantity))
                                   (fun q => ret (results ++ [q]))
                     | None => ret results
                     end)
                 (fun results =>
                    if (3 <=? List.length results)%nat then ret results
                    else adapter_loop rest item quantity results)) t).
  unfold bind, lift, ret.
  destruct (f item t) as [[e|[l|]] t1]; try reflexivity.
  - destruct (stamp l quantity) as [e|q]; [reflexivity|].
    destruct (3 <=? List.length (results ++ [q]))%nat; reflexivity.
  - destruct (3 <=? List.length results)%nat; reflexivity.
Qed.

Lemma merge_ai_cons s rest quantity results :
  merge_ai (s :: rest) quantity results =
    if (3 <=? List.length results)%nat then ok results
    else if (ai_price s <=? 0)%float then merge_ai rest quantity results
    else match ai_quote s (ai_price s) quantity with
         | inl e => inl e
         | inr q => merge_ai rest quantity (results ++ [q])
         end.
Proof. reflexivity. Qed.

(** ** What the two loops preserve *)

Lemma stamp_priced l quantity q :
  stamp l quantity = ok q -> priced quantity q.
Proof.
  unfold stamp, float_mul_int, res_bind.
  destruct (float_of_int quantity) as [e|d] eqn:Hd; [discriminate|].
  intros H. inversion H; subst; clear H. split; [reflexivity|].
  exists d. split; [exact Hd | reflexivity].
Qed.

Lemma ai_quote_priced s price quantity q :
  ai_quote s price quantity = ok q ->
  priced quantity q /\ unit_price q = price.
Proof.
  unfold ai_quote, float_mul_int, res_bind.
  destruct (py_get s (lit "store") _) as [e|st]; [discriminate|].
  destruct (py_get s (lit "address") _) as [e|ad]; [discriminate|].
  destruct (float_of_int quantity) as [e|d] eqn:Hd; [discriminate|].
  destruct (py_get s (lit "confidence") _) as [e|co]; [discriminate|].
  intros H. inversion H; subst; clear H. cbn.
  repeat split. exists d. split; [exact Hd | reflexivity].
Qed.

Lemma adapter_loop_Forall (P : quote -> Prop) quantity :
  (forall l q, stamp l quantity = ok q -> P q) ->
  forall funcs item results t rs t',
    Forall P results ->
    adapter_loop funcs item quantity results t = (ok rs, t') ->
    Forall P rs.
Proof.
  intros HP funcs. induction funcs as [|f rest IH]; intros item results t rs t' Hres.
  - cbn. unfold ret. intros H. inversion H; subst. exact Hres.
  - rewrite adapter_loop_cons.
    destruct (f item t) as [[e|[l|]] t1]; [discriminate| |].
    + destruct (stamp l quantity) as [e|q] eqn:Hq; [discriminate|].
      assert (Hres' : Forall P (results ++ [q])).
      { apply Forall_app. split; [exact Hres|]. constructor; [|constructor].
        now apply HP with l. }
      destruct (3 <=? List.length (results ++ [q]))%nat.
      * intros H. inversion H; subst. exact Hres'.
      * now apply IH.
    + destruct (3 <=? List.length results)%nat.
      * intros H. inversion H; subst. exact Hres.
      * now apply IH.
Qed.

Lemma merge_ai_Forall (P : quote -> Prop) quantity :
  (forall s q, ai_quote s (ai_price s) quantity = ok q ->
               (ai_price s <=? 0)%float = false -> P q) ->
  forall elems results rs,
    Forall P results ->
    merge_ai elems quantity results = ok rs ->
    Forall P rs.
Proof.
  intros HP elems. induction elems as [|s rest IH]; intros results rs Hres.
  - cbn. intros H. inversion H; subst. exact Hres.
  - rewrite merge_ai_cons. destruct (3 <=? List.length results)%nat.
    + intros H. inversion H; subst. exact Hres.
    + destruct (ai_price s <=? 0)%float eqn:Hp; [now apply IH|].
      destruct (ai_quote s (ai_price s) quantity) as [e|q] eqn:Hq; [discriminate|].
      apply IH. apply Forall_app. split; [exact Hres|].
      constructor; [|constructor]. now apply HP with s.
Qed.

Lemma adapter_loop_length funcs item quantity :
  forall results t rs t',
    List.length results <= 2 ->
    adapter_loop funcs item quantity results t = (ok rs, t') ->
    List.length rs <= 3.
Proof.
  induction funcs as [|f rest IH]; intros results t rs t' Hlen.
  - cbn. unfold ret. intros H. inversion H; subst. lia.
  - rewrite adapter_loop_cons.
    destruct (f item t) as [[e|[l|]] t1]; [discriminate| |].
    + destruct (stamp l quantity) as [e|q]; [discriminate|].
      assert (Hl : List.length (results ++ [q]) = S (List.length results))
        by (rewrite length_app; cbn; lia).
      destruct (Nat.leb_spec 3 (List.length (results ++ [q]))).
      * intros H'. inversion H'; subst. lia.
      * apply IH. lia.
    + destruct (Nat.leb_spec 3 (List.length results)).
      * intros H'. inversion H'; subst. lia.
      * now apply IH.
Qed.

Lemma merge_ai_length elems quantity :
  forall results rs,
    List.length results <= 3 ->
    merge_ai elems quantity results = ok rs ->
    List.length rs <= 3.
Proof.
  induction elems as [|s rest IH]; intros results rs Hlen.
  - cbn. intros H. inversion H; subst. exact Hlen.
  - rewrite merge_ai_cons. destruct (Nat.leb_spec 3 (List.length results)).
    + intros H'. inversion H'; subst. exact Hlen.
    + destruct (ai_price s <=? 0)%float; [now apply IH|].
      destruct (ai_quote s (ai_price s) quantity) as [e|q]; [discriminate|].
      apply IH. rewrite length_app. cbn. lia.
Qed.

(** ** The calls of the adapter phase *)

Lemma fetch_price_wilcon_quiet : quiet (fetch_price_wilcon w).
Proof.
  intros item t. unfold fetch_price_wilcon, bind, emit, ret.
  eexists. exists [CallWilcon]. split; [reflexivity|].
  cbn. intros [H|[]]. discriminate.
Qed.

Lemma fetch_price_ace_quiet : quiet (fetch_price_ace w).
Proof.
  intros item t. unfold fetch_price_ace, bind, emit, ret.
  eexists. exists [CallAce]. split; [reflexivity|].
  cbn. intros [H|[]]. discriminate.
Qed.

Lemma fetch_price_shopee_quiet : quiet (fetch_price_shopee w).
Proof.
  intros item t. unfold fetch_price_shopee, bind, emit, ret.
  eexists. exists [CallShopee]. split; [reflexivity|].
  cbn. intros [H|[]]. discriminate.
Qed.

Lemma fetch_funcs_quiet : Forall quiet (fetch_funcs w).
Proof.
  repeat constructor.
  - apply fetch_price_wilcon_quiet.
  - apply fetch_price_ace_quiet.
  - apply fetch_price_shopee_quiet.
Qed.

Lemma adapter_loop_trace funcs item quantity :
  Forall quiet funcs ->
  forall results t, exists t',
    snd (adapter_loop funcs item quantity results t) = t ++ t'
    /\ ~ In CallAI t'.
Proof.
  induction 1 as [|f rest Hf _ IH]; intros results t.
  - exists []. cbn. rewrite app_nil_r. auto.
  - rewrite adapter_loop_cons. destruct (Hf item t) as (r & t1 & Hrun & Hq).
    rewrite Hrun.
    assert (Hnext : forall rs', exists t',
               snd (if (3 <=? List.length rs')%nat then (@inr pyexn _ rs', t ++ t1)
                    else adapter_loop rest item quantity rs' (t ++ t1))
               = t ++ t' /\ ~ In CallAI t').
    { intros rs'. destruct (3 <=? List.length rs')%nat.
      - exists t1. split; [reflexivity|exact Hq].
      - destruct (IH rs' (t ++ t1)) as (t2 & Ht2 & Hq2).
        exists (t1 ++ t2). split; [rewrite app_assoc; exact Ht2|].
        rewrite in_app_iff. tauto. }
    destruct r as [l|].
    + destruct (stamp l quantity) as [e|q].
      * exists t1. split; [reflexivity|exact Hq].
      * apply Hnext.
    + apply Hnext.
Qed.

Lemma ai_calls_app t t' : ai_calls (t ++ t') = ai_calls t + ai_calls t'.
Proof. apply count_occ_app. Qed.

Lemma ai_calls_quiet t : ~ In CallAI t -> ai_calls t = 0.
Proof. intros H. now apply count_occ_not_In. Qed.

Lemma adapter_phase_ai_calls item quantity :
  ai_calls (snd (adapter_loop (fetch_funcs w) item quantity [] [])) = 0.
Proof.
  destruct (adapter_loop_trace item quantity fetch_funcs_quiet [] [])
    as (t' & Ht & Hq).
  rewrite Ht. cbn [app]. now apply ai_calls_quiet.
Qed.

Lemma ai_fallback_trace item quantity results t :
  snd (ai_fallback w item quantity results t) = t ++ [CallAI].
Proof.
  rewrite ai_fallback_unfold.
  destruct (chat w item) as [e|content]; [reflexivity|].
  destruct (extract_ai_stores _) as [e|v]; [reflexivity|].
  destruct (py_iter v) as [e|elems]; reflexivity.
Qed.

(** ** Brackets in the answer *)

Lemma find_from_spec ch s : forall i,
  (0 <= i)%Z ->
  (In ch s -> (i <= find_from ch i s)%Z) /\
  (~ In ch s -> find_from ch i s = (-1)%Z).
Proof.
  induction s as [|c r IH]; intros i Hi; cbn [find_from In].
  - split; [tauto | reflexivity].
  - destruct (N.eqb_spec c ch) as [->|Hne].
    + split; [lia | tauto].
    + destruct (IH (i + 1)%Z ltac:(lia)) as [IH1 IH2]. split.
      * intros [Heq|Hin]; [congruence|]. specialize (IH1 Hin). lia.
      * intros Hn. apply IH2. tauto.
Qed.

Lemma find_none ch s : find ch s = (-1)%Z <-> ~ In ch s.
Proof.
  unfold find. destruct (find_from_spec ch s (i := 0%Z) ltac:(lia)) as [H1 H2].
  split; [|exact H2]. intros Heq Hin. specialize (H1 Hin). lia.
Qed.

Lemma rfind_from_spec ch s : forall i best,
  (0 <= i)%Z ->
  (In ch s -> (i <= rfind_from ch i best s)%Z) /\
  (~ In ch s -> rfind_from ch i best s = best).
Proof.
  induction s as [|c r IH]; intros i best Hi; cbn [rfind_from In].
  - split; [tauto | reflexivity].
  - destruct (N.eqb_spec c ch) as [->|Hne].
    + split; [|tauto]. intros _.
      destruct (IH (i + 1)%Z i ltac:(lia)) as [IH1 IH2].
      destruct (in_dec N.eq_dec ch r) as [Hin|Hn].
      * specialize (IH1 Hin). lia.
      * rewrite (IH2 Hn). lia.
    + destruct (IH (i + 1)%Z best ltac:(lia)) as [IH1 IH2]. split.
      * intros [Heq|Hin]; [congruence|]. specialize (IH1 Hin). lia.
      * intros Hn. apply IH2. tauto.
Qed.

Lemma rfind_none ch s : rfind ch s = (-1)%Z <-> ~ In ch s.
Proof.
  unfold rfind.
  destruct (rfind_from_spec ch s (i := 0%Z) (-1)%Z ltac:(lia)) as [H1 H2].
  split; [|exact H2]. intros Heq Hin. specialize (H1 Hin). lia.
Qed.

Lemma In_lstrip c s : In c (lstrip s) -> In c s.
Proof.
  induction s as [|a r IH]; cbn [lstrip]; [tauto|].
  destruct (isspace a); [|tauto]. intros H. right. now apply IH.
Qed.

Lemma In_strip c s : In c (strip s) -> In c s.
Proof.
  unfold strip, rstrip. intros H.
  apply <- in_rev in H. apply In_lstrip in H. apply <- in_rev in H.
  now apply In_lstrip.
Qed.

(** Line 185, when its test fails. *)
Lemma extract_without_pair ai_str :
  ~ bracket_pair ai_str -> extract_ai_stores ai_str = ok (JArr []).
Proof.
  unfold bracket_pair, extract_ai_stores. intros H.
  destruct (Z.eqb_spec (find 91 ai_str) (-1)); [reflexivity|].
  destruct (Z.eqb_spec (rfind 93 ai_str) (-1)); [reflexivity|].
  destruct (Z.gtb_spec (rfind 93 ai_str) (find 91 ai_str)); [|reflexivity].
  exfalso. apply H. repeat split; assumption.
Qed.

(** Lines 186-187, when it holds. *)
Lemma extract_with_pair ai_str :
  bracket_pair ai_str ->
  extract_ai_stores ai_str =
    match json_loads (json_str ai_str) with
    | Some v => ok v
    | None => raise JSONDecodeError
    end.
Proof.
  unfold bracket_pair, extract_ai_stores, json_str. intros (H1 & H2 & H3).
  destruct (Z.eqb_spec (find 91 ai_str) (-1)); [contradiction|].
  destruct (Z.eqb_spec (rfind 93 ai_str) (-1)); [contradiction|].
  destruct (Z.gtb_spec (rfind 93 ai_str) (find 91 ai_str)); [reflexivity|lia].
Qed.

Lemma extract_raises_iff ai_str :
  (exists e, extract_ai_stores ai_str = inl e) <->
  bracket_pair ai_str /\ json_loads (json_str ai_str) = None.
Proof.
  split.
  - intros [e He].
    assert (Hp : bracket_pair ai_str).
    { unfold bracket_pair.
      destruct (Z.eq_dec (find 91 ai_str) (-1)) as [H1|H1];
        [rewrite extract_without_pair in He;
         [discriminate | unfold bracket_pair; tauto]|].
      destruct (Z.eq_dec (rfind 93 ai_str) (-1)) as [H2|H2];
        [rewrite extract_without_pair in He;
         [discriminate | unfold bracket_pair; tauto]|].
      destruct (Z_lt_dec (find 91 ai_str) (rfind 93 ai_str)) as [H3|H3];
        [tauto|].
      rewrite extract_without_pair in He;
        [discriminate | unfold bracket_pair; tauto]. }
    split; [exact Hp|]. rewrite (extract_with_pair Hp) in He.
    destruct (json_loads (json_str ai_str)); [discriminate|reflexivity].
  - intros [Hp Hn]. exists JSONDecodeError.
    rewrite (extract_with_pair Hp), Hn. reflexivity.
Qed.

(** ** Stripping keeps the brackets and their order *)

Lemma lstrip_split s :
  exists lead, s = lead ++ lstrip s /\ Forall (fun c => isspace c = true) lead.
Proof.
  induction s as [|a r (lead & Hs & Hl)]; cbn [lstrip].
  - exists []. split; [reflexivity|constructor].
  - destruct (isspace a) eqn:Ha.
    + exists (a :: lead). split; [cbn; now f_equal|now constructor].
    + exists []. split; [reflexivity|constructor].
Qed.

Lemma strip_split s :
  exists lead trail,
    s = lead ++ strip s ++ trail
    /\ Forall (fun c => isspace c = true) lead
    /\ Forall (fun c => isspace c = true) trail.
Proof.
  destruct (lstrip_split s) as (lead & Hs & Hl).
  destruct (lstrip_split (rev (lstrip s))) as (tl & Hr & Ht).
  exists lead, (rev tl). repeat split; [|exact Hl|now apply Forall_rev].
  unfold strip, rstrip. rewrite <- rev_app_distr, <- Hr, rev_involutive.
  exact Hs.
Qed.

Lemma space_not_in ch l :
  isspace ch = false -> Forall (fun c => isspace c = true) l -> ~ In ch l.
Proof.
  intros Hc Hl Hin. rewrite Forall_forall in Hl. apply Hl in Hin. congruence.
Qed.

Lemma find_from_app_out ch a b : forall i,
  ~ In ch a ->
  find_from ch i (a ++ b) = find_from ch (i + Z.of_nat (List.length a)) b.
Proof.
  induction a as [|c a IH]; intros i Hn.
  - cbn. now rewrite Z.add_0_r.
  - cbn [app find_from]. destruct (N.eqb_spec c ch) as [->|Hne].
    + exfalso. apply Hn. now left.
    + rewrite IH by (intros H; apply Hn; now right).
      cbn [List.length]. f_equal. lia.
Qed.

Lemma find_from_app_in ch a b : forall i,
  In ch a -> find_from ch i (a ++ b) = find_from ch i a.
Proof.
  induction a as [|c a IH]; intros i Hin; [destruct Hin|].
  cbn [app find_from]. destruct (N.eqb_spec c ch) as [->|Hne]; [reflexivity|].
  apply IH. destruct Hin as [?|?]; [congruence|assumption].
Qed.

Lemma find_from_shift ch s : forall i,
  In ch s -> find_from ch i s = (i + find_from ch 0 s)%Z.
Proof.
  induction s as [|c r IH]; intros i Hin; [destruct Hin|].
  cbn [find_from]. destruct (N.eqb_spec c ch) as [->|Hne]; [lia|].
  destruct Hin as [?|Hin]; [congruence|].
  rewrite (IH (i + 1)%Z Hin), (IH (0 + 1)%Z Hin). lia.
Qed.

Lemma rfind_from_app ch a b : forall i best,
  rfind_from ch i best (a ++ b) =
    rfind_from ch (i + Z.of_nat (List.length a)) (rfind_from ch i best a) b.
Proof.
  induction a as [|c a IH]; intros i best.
  - cbn. now rewrite Z.add_0_r.
  - cbn [app rfind_from List.length]. rewrite IH. f_equal. lia.
Qed.

Lemma rfind_from_out ch s : forall i best,
  ~ In ch s -> rfind_from ch i best s = best.
Proof.
  induction s as [|c r IH]; intros i best Hn; [reflexivity|].
  cbn [rfind_from]. destruct (N.eqb_spec c ch) as [->|Hne].
  - exfalso. apply Hn. now left.
  - apply IH. intros H. apply Hn. now right.
Qed.

Lemma rfind_from_shift ch s : forall i best,
  In ch s -> rfind_from ch i best s = (i + rfind_from ch 0 (-1) s)%Z.
Proof.
  induction s as [|c r IH]; intros i best Hin; [destruct Hin|].
  cbn [rfind_from].
  destruct (in_dec N.eq_dec ch r) as [Hr|Hr].
  - rewrite (IH (i + 1)%Z _ Hr), (IH (0 + 1)%Z _ Hr). lia.
  - destruct Hin as [->|Hin]; [|contradiction].
    rewrite N.eqb_refl, !rfind_from_out by exact Hr. lia.
Qed.

(** The positions of a character that is no whitespace, before and after
    [strip]: they differ by the number of characters stripped on the left. *)
Lemma strip_positions s :
  exists n : Z, forall ch,
    isspace ch = false ->
    (In ch s <-> In ch (strip s)) /\
    (In ch s ->
     find ch s = (n + find ch (strip s))%Z /\
     rfind ch s = (n + rfind ch (strip s))%Z).
Proof.
  destruct (strip_split s) as (lead & trail & Hs & Hl & Ht).
  exists (Z.of_nat (List.length lead)). intros ch Hc.
  pose proof (@space_not_in ch lead Hc Hl) as Hnl.
  pose proof (@space_not_in ch trail Hc Ht) as Hnt.
  assert (Hin : In ch s <-> In ch (strip s)).
  { rewrite Hs at 1. rewrite !in_app_iff. tauto. }
  split; [exact Hin|]. intros Hins. apply Hin in Hins.
  unfold find, rfind. rewrite Hs at 1 3. split.
  - rewrite find_from_app_out by exact Hnl.
    rewrite find_from_app_in by exact Hins.
    rewrite find_from_shift by exact Hins. reflexivity.
  - rewrite rfind_from_app. rewrite (@rfind_from_out ch lead 0%Z (-1)%Z Hnl).
    rewrite rfind_from_app. rewrite rfind_from_out by exact Hnt.
    rewrite rfind_from_shift by exact Hins. reflexivity.
Qed.

Lemma bracket_pair_strip s : bracket_pair (strip s) <-> bracket_pair s.
Proof.
  destruct (strip_positions s) as (n & Hn).
  destruct (Hn 91%N eq_refl) as [Hin1 Hp1].
  destruct (Hn 93%N eq_refl) as [Hin2 Hp2].
  unfold bracket_pair.
  assert (E1 : find 91 s <> (-1)%Z <-> find 91 (strip s) <> (-1)%Z)
    by (rewrite !find_none; tauto).
  assert (E2 : rfind 93 s <> (-1)%Z <-> rfind 93 (strip s) <> (-1)%Z)
    by (rewrite !rfind_none; tauto).
  assert (I1 : find 91 s <> (-1)%Z -> In 91%N s).
  { intros H. destruct (in_dec N.eq_dec 91%N s) as [|Hno]; [assumption|].
    apply find_none in Hno. contradiction. }
  assert (I2 : rfind 93 s <> (-1)%Z -> In 93%N s).
  { intros H. destruct (in_dec N.eq_dec 93%N s) as [|Hno]; [assumption|].
    apply rfind_none in Hno. contradiction. }
  split.
  - intros (H1 & H2 & H3). apply E1 in H1. apply E2 in H2.
    destruct (Hp1 (I1 H1)) as [F _]. destruct (Hp2 (I2 H2)) as [_ R].
    repeat split; [assumption|assumption|lia].
  - intros (H1 & H2 & H3).
    destruct (Hp1 (I1 H1)) as [F _]. destruct (Hp2 (I2 H2)) as [_ R].
    repeat split; [now apply E1|now apply E2|lia].
Qed.

(** ** A call that reaches the AI fallback *)

Lemma get_stores_via_ai body item quantity results t content :
  reaches_ai w body item quantity results t content ->
  get_stores w body =
    match extract_ai_stores (strip (content_text content)) with
    | inl e => (ServerError e, t ++ [CallAI])
    | inr v =>
        match py_iter v with
        | inl e => (ServerError e, t ++ [CallAI])
        | inr elems =>
            match merge_ai elems quantity results with
            | inl e => (ServerError e, t ++ [CallAI])
            | inr rs => (Stores (firstn 3 rs), t ++ [CallAI])
            end
        end
    end.
Proof.
  intros (Hf & Hne & Hloop & Hlen & Hchat).
  rewrite (@get_stores_collect body item quantity Hf Hne),
    collect_quotes_unfold, Hloop.
  apply Nat.ltb_lt in Hlen. rewrite Hlen.
  rewrite ai_fallback_unfold, Hchat.
  destruct (extract_ai_stores _) as [e|v]; [reflexivity|].
  destruct (py_iter v) as [e|elems]; [reflexivity|].
  destruct (merge_ai elems quantity results) as [e|rs]; reflexivity.
Qed.

Lemma get_stores_ai_silent body item quantity results t content :
  reaches_ai w body item quantity results t content ->
  extract_ai_stores (strip (content_text content)) = ok (JArr []) ->
  get_stores w body = (Stores results, t ++ [CallAI]).
Proof.
  intros Hr He. rewrite (get_stores_via_ai Hr), He. cbn [py_iter merge_ai].
  destruct Hr as (_ & _ & _ & Hlen & _).
  rewrite firstn_all2 by lia. reflexivity.
Qed.

(** ** The whole collection phase *)

Lemma Forall_firstn_keep {A} (P : A -> Prop) n (l : list A) :
  Forall P l -> Forall P (firstn n l).
Proof.
  intros H. revert n. induction H as [|a l Ha _ IH]; intros [|n]; cbn;
    constructor; auto.
Qed.

Lemma collect_quotes_Forall (P : quote -> Prop) item quantity rs t :
  (forall l q, stamp l quantity = ok q -> P q) ->
  (forall s q, ai_quote s (ai_price s) quantity = ok q ->
               (ai_price s <=? 0)%float = false -> P q) ->
  collect_quotes w item quantity [] = (ok rs, t) ->
  Forall P rs.
Proof.
  intros Hs Ha. rewrite collect_quotes_unfold.
  destruct (adapter_loop (fetch_funcs w) item quantity [] [])
    as [[e|results] t1] eqn:Hloop; [discriminate|].
  assert (Hres : Forall P results)
    by (eapply adapter_loop_Forall; [exact Hs | constructor | exact Hloop]).
  destruct (List.length results <? 3)%nat.
  - rewrite ai_fallback_unfold.
    destruct (chat w item) as [e|content]; [discriminate|].
    destruct (extract_ai_stores _) as [e|v]; [discriminate|].
    destruct (py_iter v) as [e|elems]; [discriminate|].
    intros H. inversion H as [[Hm Ht]].
    eapply merge_ai_Forall; [exact Ha | exact Hres | exact Hm].
  - intros H. inversion H; subst. exact Hres.
Qed.

Lemma collect_quotes_length item quantity rs t :
  collect_quotes w item quantity [] = (ok rs, t) ->
  List.length rs <= 3.
Proof.
  rewrite collect_quotes_unfold.
  destruct (adapter_loop (fetch_funcs w) item quantity [] [])
    as [[e|results] t1] eqn:Hloop; [discriminate|].
  assert (Hres : List.length results <= 3)
    by (eapply adapter_loop_length; [|exact Hloop]; cbn; lia).
  destruct (List.length results <? 3)%nat.
  - rewrite ai_fallback_unfold.
    destruct (chat w item) as [e|content]; [discriminate|].
    destruct (extract_ai_stores _) as [e|v]; [discriminate|].
    destruct (py_iter v) as [e|elems]; [discriminate|].
    intros H. inversion H as [[Hm Ht]].
    eapply merge_ai_length; [exact Hres | exact Hm].
  - intros H. inversion H; subst. exact Hres.
Qed.

Lemma collect_quotes_trace item quantity :
  snd (collect_quotes w item quantity []) =
    match adapter_loop (fetch_funcs w) item quantity [] [] with
    | (inr results, t1) =>
        if (List.length results <? 3)%nat then t1 ++ [CallAI] else t1
    | (inl _, t1) => t1
    end.
Proof.
  rewrite collect_quotes_unfold.
  destruct (adapter_loop (fetch_funcs w) item quantity [] [])
    as [[e|results] t1]; [reflexivity|].
  destruct (List.length results <? 3)%nat; [|reflexivity].
  apply ai_fallback_trace.
Qed.

(** A successful response comes from a well-formed request and a
    collection phase that returned. *)
Lemma get_stores_Stores_inv body results t :
  get_stores w body = (Stores results, t) ->
  exists item quantity rs,
    request_fields body = ok (item, quantity) /\ item <> [] /\
    collect_quotes w item quantity [] = (ok rs, t) /\
    results = firstn 3 rs.
Proof.
  intros H. destruct (request_fields body) as [e|[item quantity]] eqn:Hf.
  - rewrite (@get_stores_fields_raise body e Hf) in H. discriminate.
  - destruct item as [|c item].
    + rewrite (@get_stores_no_item body quantity Hf) in H. discriminate.
    + assert (Hne : c :: item <> []) by discriminate.
      rewrite (@get_stores_collect body (c :: item) quantity Hf Hne) in H.
      exists (c :: item), quantity.
      destruct (collect_quotes w (c :: item) quantity []) as [[e|rs] t1];
        [discriminate|].
      exists rs. inversion H; subst. auto.
Qed.

Lemma get_stores_trace body :
  snd (get_stores w body) = [] \/
  exists item quantity,
    request_fields body = ok (item, quantity) /\ item <> [] /\
    snd (get_stores w body) = snd (collect_quotes w item quantity []).
Proof.
  destruct (request_fields body) as [e|[item quantity]] eqn:Hf.
  - left. now rewrite (@get_stores_fields_raise body e Hf).
  - destruct item as [|c item].
    + left. now rewrite (@get_stores_no_item body quantity Hf).
    + right. exists (c :: item), quantity.
      assert (Hne : c :: item <> []) by discriminate.
      rewrite (@get_stores_collect body (c :: item) quantity Hf Hne).
      repeat split; [exact Hne|].
      destruct (collect_quotes w (c :: item) quantity []) as [[e|rs] t1];
        reflexivity.
Qed.

(** ** The AI merge loop *)

Lemma no_coercible_price_zero s :
  no_coercible_price s -> ai_price s = 0%float.
Proof.
  unfold no_coercible_price, ai_price, ai_price_try, py_get, res_bind.
  destruct s as [| | | | | |kv]; try reflexivity.
  destruct (lookup (lit "price") kv) as [p|].
  - intros [e He]. now rewrite He.
  - intros _. reflexivity.
Qed.

Lemma merge_ai_skip s quantity before :
  (ai_price s <=? 0)%float = true ->
  forall after results,
    merge_ai (before ++ s :: after) quantity results
    = merge_ai (before ++ after) quantity results.
Proof.
  intros Hp. induction before as [|x before IH]; intros after results.
  - cbn [app]. rewrite merge_ai_cons, Hp.
    destruct (3 <=? List.length results)%nat eqn:Hfull; [|reflexivity].
    destruct after as [|y after]; [reflexivity|].
    now rewrite merge_ai_cons, Hfull.
  - cbn [app]. rewrite !merge_ai_cons.
    destruct (3 <=? List.length results)%nat; [reflexivity|].
    destruct (ai_price x <=? 0)%float; [apply IH|].
    destruct (ai_quote x (ai_price x) quantity) as [e|q]; [reflexivity|].
    apply IH.
Qed.

Lemma total_price_holds_aux body results t :
  get_stores w body = (Stores results, t) ->
  exists quantity0,
    request_quantity body = ok quantity0 /\ Forall (priced quantity0) results.
Proof.
  intros H. apply get_stores_Stores_inv in H.
  destruct H as (item & quantity0 & rs & Hf & _ & Hc & ->).
  exists quantity0. split; [now apply request_fields_ok in Hf|].
  apply Forall_firstn_keep.
  eapply collect_quotes_Forall; [| |exact Hc].
  - intros l q. apply stamp_priced.
  - intros s q Hq _. now apply ai_quote_priced in Hq.
Qed.

End Handler.

(* ===================================================================== *)
(** * Properties of the aggregation endpoint *)
(* ===================================================================== *)

Section Properties.
Context {B : Builtins}.
Variable w : World.

(** C3. The extraction of the AI answer raises exactly when a bracket pair
    is found and [json.loads] rejects the text between the brackets. In a
    call that reaches the AI fallback: an answer without "[" or without "]"
    adds no quote and raises nothing, the response being the adapter
    quotes; an answer with a bracket pair around text that is not JSON makes
    the request end in the 500 response of the top-level handler. *)
Theorem ai_answer_error_iff_unparsable_pair :
  (forall ai_str,
      (exists e, extract_ai_stores ai_str = inl e) <->
      bracket_pair ai_str /\ json_loads (json_str ai_str) = None) /\
  (forall body item quantity results t content,
      reaches_ai w body item quantity results t content ->
      let raw := content_text content in
      (~ In 91%N raw \/ ~ In 93%N raw ->
       extract_ai_stores (strip raw) = ok (JArr []) /\
       get_stores w body = (Stores results, t ++ [CallAI])) /\
      (bracket_pair raw ->
       json_loads (json_str (strip raw)) = None ->
       extract_ai_stores (strip raw) = raise JSONDecodeError /\
       get_stores w body = (ServerError JSONDecodeError, t ++ [CallAI]))).
Proof.
  split; [exact extract_raises_iff|].
  intros body item quantity results t content Hr raw. subst raw. split.
  - intros Hno.
    assert (He : extract_ai_stores (strip (content_text content)) = ok (JArr [])).
    { apply extract_without_pair. intros (H1 & H2 & _).
      rewrite find_none in H1. rewrite rfind_none in H2.
      destruct Hno as [Hno|Hno].
      - apply H1. intros Hin. apply Hno. now apply In_strip.
      - apply H2. intros Hin. apply Hno. now apply In_strip. }
    split; [exact He|]. now apply get_stores_ai_silent with item quantity content.
  - intros Hp Hn. apply <- bracket_pair_strip in Hp.
    assert (He : extract_ai_stores (strip (content_text content))
                 = raise JSONDecodeError)
      by (erewrite extract_with_pair by exact Hp; now rewrite Hn).
    split; [exact He|].
    erewrite get_stores_via_ai by exact Hr. now rewrite He.
Qed.

(** C4. The trace of a request calls the chat model at most once. When the
    adapter loop has ended with [results], the model is called once if
    [results] has fewer than 3 entries and not at all otherwise. *)
Theorem ai_called_once_iff_fewer_than_three body :
  ai_calls (snd (get_stores w body)) <= 1 /\
  forall item quantity results t,
    request_fields body = ok (item, quantity) ->
    item <> [] ->
    adapter_loop (fetch_funcs w) item quantity [] [] = (ok results, t) ->
    ai_calls (snd (get_stores w body))
    = if (List.length results <? 3)%nat then 1 else 0.
Proof.
  assert (Hcollect : forall item quantity,
             ai_calls (snd (collect_quotes w item quantity [])) =
               match adapter_loop (fetch_funcs w) item quantity [] [] with
               | (inr results, _) =>
                   if (List.length results <? 3)%nat then 1 else 0
               | (inl _, _) => 0
               end).
  { intros item quantity. rewrite collect_quotes_trace.
    pose proof (@adapter_phase_ai_calls B w item quantity) as H0.
    destruct (adapter_loop (fetch_funcs w) item quantity [] [])
      as [[e|results] t1]; cbn [snd] in H0; [exact H0|].
    destruct (List.length results <? 3)%nat; [|exact H0].
    rewrite ai_calls_app, H0. reflexivity. }
  split.
  - destruct (@get_stores_trace B w body) as [H|(item & quantity & _ & _ & H)];
      rewrite H; [cbn; lia|].
    rewrite Hcollect.
    destruct (adapter_loop (fetch_funcs w) item quantity [] [])
      as [[e|results] t1]; [lia|].
    destruct (List.length results <? 3)%nat; lia.
  - intros item quantity results t Hf Hne Hloop.
    erewrite get_stores_collect by eassumption.
    replace (snd _) with (snd (collect_quotes w item quantity []))
      by (destruct (collect_quotes w item quantity []) as [[e|rs] t1];
          reflexivity).
    rewrite Hcollect, Hloop. reflexivity.
Qed.

(** C5. Every quote of a successful response carries the quantity of the
    request, and its [total_price] is its [unit_price] times that quantity,
    the product Python computes for a [float] and an [int]. *)
Theorem total_price_is_unit_price_times_quantity body results t :
  get_stores w body = (Stores results, t) ->
  exists quantity0,
    request_quantity body = ok quantity0 /\ Forall (priced quantity0) results.
Proof.
  apply total_price_holds_aux.
Qed.

(** C6. A successful response holds at most 3 quotes, and so does the list
    the two phases have built before line 213 truncates it. *)
Theorem at_most_three_quotes body results t :
  get_stores w body = (Stores results, t) ->
  List.length results <= 3 /\
  exists item quantity rs,
    collect_quotes w item quantity [] = (ok rs, t) /\
    List.length rs <= 3 /\ results = rs.
Proof.
  intros H. apply get_stores_Stores_inv in H.
  destruct H as (item & quantity0 & rs & _ & _ & Hc & ->).
  pose proof Hc as Hlen. apply collect_quotes_length in Hlen.
  rewrite firstn_all2 by exact Hlen. split; [exact Hlen|].
  exists item, quantity0, rs. auto.
Qed.

(** C9. In a call that reaches the AI fallback, an answer in which "[" and
    "]" both occur, the last "]" not after the first "[", adds no quote and
    raises nothing: the response is the adapter quotes. *)
Theorem ai_answer_reversed_brackets_silent
    body item quantity results t content :
  reaches_ai w body item quantity results t content ->
  let raw := content_text content in
  In 91%N raw -> In 93%N raw ->
  (rfind 93 raw <= find 91 raw)%Z ->
  extract_ai_stores (strip raw) = ok (JArr []) /\
  get_stores w body = (Stores results, t ++ [CallAI]).
Proof.
  intros Hr raw _ _ Hle. subst raw.
  assert (He : extract_ai_stores (strip (content_text content)) = ok (JArr [])).
  { apply extract_without_pair. intros Hp. apply -> bracket_pair_strip in Hp.
    destruct Hp as (_ & _ & Hlt). lia. }
  split; [exact He|]. now apply get_stores_ai_silent with item quantity content.
Qed.

(** C10. An element of the parsed array that is not an object with a price
    [float] accepts has price 0 and is skipped: the merge loop gives what it
    gives without the element, and so does the AI fallback, whose outcome is
    that of the remaining elements. *)
Theorem ai_entry_without_price_skipped s :
  no_coercible_price s ->
  ai_price s = 0%float /\
  (forall before after quantity results,
      merge_ai (before ++ s :: after) quantity results
      = merge_ai (before ++ after) quantity results) /\
  (forall item quantity results t content v before after,
      chat w item = ok content ->
      extract_ai_stores (strip (content_text content)) = ok v ->
      py_iter v = ok (before ++ s :: after) ->
      ai_fallback w item quantity results t
      = (merge_ai (before ++ after) quantity results, t ++ [CallAI])).
Proof.
  intros Hs. pose proof Hs as H0. apply no_coercible_price_zero in H0.
  assert (Hle : (ai_price s <=? 0)%float = true) by (rewrite H0; reflexivity).
  split; [exact H0|]. split.
  - intros before after quantity results. now apply merge_ai_skip.
  - intros item quantity results t content v before after Hc He Hi.
    rewrite ai_fallback_unfold, Hc, He, Hi. f_equal. now apply merge_ai_skip.
Qed.

(** C2, as the code has it. The quantity is [int(quantity or 1)]: it is 1
    when the request has no quantity or a falsy one; a non-zero integer is
    used as it is, whatever its sign; when [int] rejects the value the
    request ends in the 500 response, before any call to a shop or to the
    chat model. Every quote of a successful response carries the quantity so
    obtained. *)
Theorem quantity_is_int_of_value_or_one body v :
  py_get (request_data body) (lit "quantity") JNull = ok v ->
  (truthy v = false -> request_quantity body = ok 1%Z) /\
  (forall n, v = JInt n -> n <> 0%Z -> request_quantity body = ok n) /\
  (forall e item,
      py_int (py_or v (JInt 1)) = inl e ->
      request_item body = ok item ->
      get_stores w body = (ServerError e, [])) /\
  (forall quantity0 results t,
      request_quantity body = ok quantity0 ->
      get_stores w body = (Stores results, t) ->
      Forall (fun q => quantity q = quantity0) results).
Proof.
  intros Hv. unfold request_quantity. rewrite Hv. cbn [res_bind].
  repeat split.
  - intros Hf. unfold py_or. rewrite Hf. reflexivity.
  - intros n -> Hn. unfold py_or. cbn [truthy].
    destruct (Z.eqb_spec n 0); [contradiction|reflexivity].
  - intros e item He Hi. apply get_stores_fields_raise.
    unfold request_fields, request_quantity. rewrite Hi, Hv. cbn [res_bind].
    now rewrite He.
  - intros quantity0 results t Hq H.
    apply total_price_holds_aux in H. destruct H as (q' & Hq' & HF).
    unfold request_quantity in Hq'. rewrite Hv in Hq'. cbn [res_bind] in Hq'.
    rewrite Hq in Hq'. inversion Hq'; subst.
    eapply Forall_impl; [|exact HF]. intros q [Hqq _]. exact Hqq.
Qed.

(** C8, as the code has it. When the item of the request is empty once
    stripped, no shop and no chat model is called; and when the quantity of
    the request converts, the response is the 400 "Item is required". *)
Theorem blank_item_rejected_before_any_call body :
  request_item body = ok [] ->
  snd (get_stores w body) = [] /\
  (forall quantity0,
      request_quantity body = ok quantity0 ->
      get_stores w body = (ItemRequired, [])).
Proof.
  intros Hi. split.
  - destruct (request_quantity body) as [e|quantity0] eqn:Hq.
    + rewrite (@get_stores_fields_raise B w body e); [reflexivity|].
      unfold request_fields. rewrite Hi, Hq. reflexivity.
    + rewrite (@get_stores_no_item B w body quantity0); [reflexivity|].
      apply request_fields_ok. auto.
  - intros quantity0 Hq. apply get_stores_no_item with quantity0.
    apply request_fields_ok. auto.
Qed.

End Properties.

(* ===================================================================== *)
(** * Concrete requests *)
(* ===================================================================== *)

Module Runs.
Import Scenario.

(** The runs below are made with the reference interpreter. *)
#[local] Existing Instance cpython.

(** Closes a goal [~ In c l] on a concrete list. *)
Ltac not_in :=
  vm_compute;
  let H := fresh in
  intros H; repeat (destruct H as [H|H]; [discriminate H|]); exact H.

(** Closes a goal [reaches_ai ...] on a concrete world and request. *)
Ltac reaches :=
  unfold reaches_ai;
  repeat split;
  try (vm_compute; reflexivity); try discriminate; try (cbn; lia).

(** The answer the specification gives as an example yields one AI quote. *)
Example ai_answer_parsed :
  exists q,
    get_stores (ai_only answer_one) hammer
    = (Stores [q], shops_down ++ [CallAI])
    /\ store q = JStr (lit "X") /\ unit_price q = 10%float
    /\ quantity q = 1%Z /\ total_price q = 10%float
    /\ confidence q = JStr (lit "low") /\ source q = lit "AI".
Proof. eexists. vm_compute. repeat split. Qed.

(** C1 on the code. A Wilcon card whose price reads "0", and an ACE card
    whose price reads "-5", are listed, with [unit_price] 0 and -5, while
    a Shopee item of raw price 0 is not: only [fetch_price_shopee] and the
    AI loop test [price <= 0]. *)
Theorem scraped_price_not_positive_is_listed :
  (exists q,
      get_stores (wilcon_only (lit "0"))
        (request (lit "hammer") (JInt 2))
      = (Stores [q], shops_down ++ [CallAI])
      /\ unit_price q = 0%float /\ source q = lit "Wilcon") /\
  (exists q,
      get_stores (ace_only (lit "-5"))
        (request (lit "hammer") (JInt 2))
      = (Stores [q], shops_down ++ [CallAI])
      /\ unit_price q = (-5)%float /\ source q = lit "ACE") /\
  get_stores (shopee_only (JInt 0))
    (request (lit "hammer") (JInt 2))
  = (Stores [], shops_down ++ [CallAI]).
Proof.
  split; [|split].
  - eexists. vm_compute. repeat split.
  - eexists. vm_compute. repeat split.
  - vm_compute. reflexivity.
Qed.

(** C7 on the code. The literal that [replace] removes is not the peso
    sign, so the sign stays in the text given to [float], which raises, and
    the scraper returns [None]; without the sign, or with the three
    characters of the literal, the text parses to 1234.5. The marketplace
    price 123450000 divided by 100000 is 1234.5. *)
Theorem peso_sign_not_stripped :
  scraped_price (lit "₱1,234.50") = raise ValueError /\
  fetch_price_wilcon (wilcon_only (lit "₱1,234.50"))
    (lit "hammer") [] = (ok None, [CallWilcon]) /\
  fetch_price_ace (ace_only (lit "₱1,234.50"))
    (lit "hammer") [] = (ok None, [CallAce]) /\
  scraped_price (lit "1,234.50") = ok 1234.5%float /\
  scraped_price (lit "â‚±1,234.50") = ok 1234.5%float /\
  py_truediv (JInt 123450000) 100000 = ok 1234.5%float /\
  (exists l,
      fetch_price_shopee (shopee_only (JInt 123450000))
        (lit "hammer") [] = (ok (Some l), [CallShopee])
      /\ l_unit_price l = 1234.5%float).
Proof.
  repeat split; try (vm_compute; reflexivity).
  eexists. vm_compute. repeat split.
Qed.

(** C2 fails as stated: a quantity of -5 is used as it is, in [quantity]
    and in [total_price], and a quantity that is no number ends the request
    in the 500 response instead of counting as 1. *)
Lemma quantity_negative_or_rejected :
  request_quantity (request (lit "hammer") (JInt (-5)))
  = ok (-5)%Z /\
  (exists q,
      get_stores (wilcon_only (lit "1,234.50"))
        (request (lit "hammer") (JInt (-5)))
      = (Stores [q], shops_down ++ [CallAI])
      /\ quantity q = (-5)%Z /\ total_price q = (-6172.5)%float) /\
  get_stores offline (request (lit "hammer") (JStr (lit "abc")))
  = (ServerError ValueError, []).
Proof.
  split; [|split].
  - vm_compute. reflexivity.
  - eexists. vm_compute. repeat split.
  - vm_compute. reflexivity.
Qed.

(** C8 fails as stated: with a blank item and a quantity that is no number,
    the response is the 500 one, not the 400 "Item is required". *)
Lemma blank_item_bad_quantity_is_server_error :
  request_item (request (lit "  ") (JStr (lit "abc"))) = ok [] /\
  get_stores offline (request (lit "  ") (JStr (lit "abc")))
  = (ServerError ValueError, []) /\
  fst (get_stores offline
         (request (lit "  ") (JStr (lit "abc")))) <> ItemRequired.
Proof.
  repeat split; try (vm_compute; reflexivity). vm_compute. discriminate.
Qed.

(** An answer without brackets, and an answer with brackets around text
    that is not JSON. *)
Lemma ai_answer_error_iff_unparsable_pair_witness :
  get_stores (ai_only (lit "no stores found")) hammer
  = (Stores [], shops_down ++ [CallAI]) /\
  get_stores (ai_only (lit " Sure: [{bad json}] ")) hammer
  = (ServerError JSONDecodeError, shops_down ++ [CallAI]).
Proof.
  split.
  - refine (proj2 (proj1 (proj2 (@ai_answer_error_iff_unparsable_pair cpython
              (ai_only (lit "no stores found")))
              hammer (lit "hammer") 1%Z [] shops_down
              (Some (lit "no stores found")) _) _)).
    + reaches.
    + left. not_in.
  - refine (proj2 (proj2 (proj2 (@ai_answer_error_iff_unparsable_pair cpython
              (ai_only (lit " Sure: [{bad json}] ")))
              hammer (lit "hammer") 1%Z [] shops_down
              (Some (lit " Sure: [{bad json}] ")) _) _ _)).
    + reaches.
    + unfold bracket_pair. vm_compute. repeat split; discriminate.
    + vm_compute. reflexivity.
Defined.

(** One Shopee quote: the chat model is called once. *)
Lemma ai_called_once_iff_fewer_than_three_witness :
  ai_calls (snd (get_stores (shopee_only (JInt 123450000))
                   hammer)) = 1.
Proof.
  refine (proj2 (@ai_called_once_iff_fewer_than_three cpython
                   (shopee_only (JInt 123450000)) hammer)
            (lit "hammer") 1%Z
            (adapter_results (shopee_only (JInt 123450000)) (lit "hammer") 1)
            shops_down _ _ _).
  - vm_compute. reflexivity.
  - discriminate.
  - vm_compute. reflexivity.
Defined.

(** A Wilcon quote for three hammers. *)
Lemma total_price_is_unit_price_times_quantity_witness :
  exists quantity0,
    request_quantity (request (lit "hammer") (JInt 3))
    = ok quantity0 /\
    Forall (priced quantity0)
      (stores_of (fst (get_stores (wilcon_only (lit "1,234.50"))
                         (request (lit "hammer") (JInt 3))))).
Proof.
  refine (@total_price_is_unit_price_times_quantity cpython
            (wilcon_only (lit "1,234.50")) (request (lit "hammer") (JInt 3))
            _ (shops_down ++ [CallAI]) _).
  vm_compute. reflexivity.
Defined.

(** Four priced AI entries: three are kept. *)
Lemma at_most_three_quotes_witness :
  List.length (stores_of (fst (get_stores (ai_only answer_four)
                                 hammer))) <= 3 /\
  exists item quantity rs,
    collect_quotes (ai_only answer_four) item quantity []
    = (ok rs, shops_down ++ [CallAI]) /\
    List.length rs <= 3 /\
    stores_of (fst (get_stores (ai_only answer_four) hammer)) = rs.
Proof.
  refine (@at_most_three_quotes cpython (ai_only answer_four) hammer
            _ (shops_down ++ [CallAI]) _).
  vm_compute. reflexivity.
Defined.

(** An answer whose only "]" comes before its only "[". *)
Lemma ai_answer_reversed_brackets_silent_witness :
  extract_ai_stores
    (strip (content_text (Some (lit " ] nothing [ "))))
  = ok (JArr []) /\
  get_stores (ai_only (lit " ] nothing [ ")) hammer
  = (Stores [], shops_down ++ [CallAI]).
Proof.
  refine (@ai_answer_reversed_brackets_silent cpython
            (ai_only (lit " ] nothing [ ")) hammer (lit "hammer") 1%Z []
            shops_down (Some (lit " ] nothing [ ")) _ _ _ _).
  - reaches.
  - vm_compute. tauto.
  - vm_compute. tauto.
  - vm_compute. discriminate.
Defined.

(** An entry whose price is the text "abc". *)
Lemma ai_entry_without_price_skipped_witness :
  let s := JObj [(lit "price", JStr (lit "abc"))] in
  ai_price s = 0%float /\
  (forall before after quantity results,
      merge_ai (before ++ s :: after) quantity results
      = merge_ai (before ++ after) quantity results) /\
  (forall item quantity results t content v before after,
      chat offline item = ok content ->
      extract_ai_stores (strip (content_text content)) = ok v ->
      py_iter v = ok (before ++ s :: after) ->
      ai_fallback offline item quantity results t
      = (merge_ai (before ++ after) quantity results, t ++ [CallAI])).
Proof.
  refine (@ai_entry_without_price_skipped cpython offline
            (JObj [(lit "price", JStr (lit "abc"))]) _).
  exists ValueError. vm_compute. reflexivity.
Defined.

(** A request without quantity: the quantity is 1. *)
Lemma quantity_is_int_of_value_or_one_witness :
  request_quantity hammer = ok 1%Z.
Proof.
  refine (proj1 (@quantity_is_int_of_value_or_one cpython offline hammer
                   JNull _) _).
  - vm_compute. reflexivity.
  - reflexivity.
Defined.

(** A blank item with a quantity of 3: the 400 response, and no call. *)
Lemma blank_item_rejected_before_any_call_witness :
  get_stores offline (request (lit "  ") (JInt 3))
  = (ItemRequired, []).
Proof.
  refine (proj2 (@blank_item_rejected_before_any_call cpython offline
                   (request (lit "  ") (JInt 3)) _) 3%Z _).
  - vm_compute. reflexivity.
  - vm_compute. reflexivity.
Defined.

End Runs.

(* ===================================================================== *)
(** * The adapter phase and the AI fill, in full *)
(* ===================================================================== *)

Section Phases.
Context {B : Builtins}.
Variable w : World.

Lemma stamp_ok l quantity d :
  float_of_int quantity = ok d ->
  stamp l quantity = ok (stamped quantity d l).
Proof.
  intros Hd. unfold stamp, float_mul_int, res_bind. rewrite Hd. reflexivity.
Qed.

Lemma stamp_raise l quantity e :
  float_of_int quantity = inl e -> stamp l quantity = inl e.
Proof.
  intros Hd. unfold stamp, float_mul_int, res_bind. rewrite Hd. reflexivity.
Qed.

Lemma stamp_fields l quantity q :
  stamp l quantity = ok q ->
  source q = l_source l /\ unit_price q = l_unit_price l
  /\ confidence q = JStr (l_confidence l).
Proof.
  unfold stamp, res_bind.
  destruct (float_mul_int (l_unit_price l) quantity) as [e|x]; [discriminate|].
  intros H. inversion H; subst. cbn. auto.
Qed.

(** The adapter loop on the three adapters, whatever they return. *)
Lemma adapter_phase_unfold item quantity :
  adapter_loop (fetch_funcs w) item quantity [] [] =
    let step (r : option listing) (k : list quote -> trace -> res (list quote) * trace)
             (results : list quote) (t : trace) :=
      match r with
      | None => k results t
      | Some l => match stamp l quantity with
                  | inl e => (inl e, t)
                  | inr q => k (results ++ [q]) t
                  end
      end in
    step (or_none (wilcon_try w item))
      (fun r1 _ =>
         step (or_none (ace_try w item))
           (fun r2 _ =>
              step (or_none (shopee_try w item))
                (fun r3 t => (ok r3, t)) r2 three_shops)
           r1 [CallWilcon; CallAce])
      [] [CallWilcon].
Proof.
  unfold fetch_funcs. rewrite adapter_loop_cons.
  unfold fetch_price_wilcon at 1, bind, emit, ret. cbn [app].
  destruct (or_none (wilcon_try w item)) as [a|];
    [destruct (stamp a quantity) as [e|qa]; [reflexivity|]|];
    cbn [app List.length Nat.leb];
    rewrite adapter_loop_cons;
    unfold fetch_price_ace at 1, bind, emit, ret; cbn [app];
    (destruct (or_none (ace_try w item)) as [b|];
     [destruct (stamp b quantity) as [e|qb]; [reflexivity|]|]);
    cbn [app List.length Nat.leb];
    rewrite adapter_loop_cons;
    unfold fetch_price_shopee at 1, bind, emit, ret; cbn [app];
    (destruct (or_none (shopee_try w item)) as [c|];
     [destruct (stamp c quantity) as [e|qc]; [reflexivity|]|]);
    cbn [app List.length Nat.leb adapter_loop ret];
    reflexivity.
Qed.

Lemma adapter_phase_run item quantity d :
  float_of_int quantity = ok d ->
  adapter_loop (fetch_funcs w) item quantity [] [] =
    (ok (map (stamped quantity d) (adapter_listings w item)), three_shops).
Proof.
  intros Hd. rewrite adapter_phase_unfold. unfold adapter_listings.
  destruct (or_none (wilcon_try w item)) as [a|];
    destruct (or_none (ace_try w item)) as [b|];
    destruct (or_none (shopee_try w item)) as [c|];
    cbv beta zeta iota; repeat (erewrite stamp_ok by exact Hd); reflexivity.
Qed.

Lemma adapter_phase_listings item quantity rs t :
  adapter_loop (fetch_funcs w) item quantity [] [] = (ok rs, t) ->
  Forall2 (fun l q => stamp l quantity = ok q) (adapter_listings w item) rs.
Proof.
  rewrite adapter_phase_unfold. unfold adapter_listings.
  destruct (or_none (wilcon_try w item)) as [a|];
    [destruct (stamp a quantity) as [e|qa] eqn:Ha; [discriminate|]|];
    (destruct (or_none (ace_try w item)) as [b|];
     [destruct (stamp b quantity) as [e|qb] eqn:Hb; [discriminate|]|]);
    (destruct (or_none (shopee_try w item)) as [c|];
     [destruct (stamp c quantity) as [e|qc] eqn:Hc; [discriminate|]|]);
    cbv beta zeta iota; rewrite ?Ha, ?Hb, ?Hc;
    intros H; inversion H; subst; cbn; repeat constructor; assumption.
Qed.

Lemma ai_kept_dict s : ai_kept s = true -> exists kv, s = JObj kv.
Proof.
  unfold ai_kept, ai_price, ai_price_try, py_get, res_bind.
  destruct s as [| | | | | |kv]; try (cbn; discriminate).
  intros _. now exists kv.
Qed.

Lemma ai_quote_ok s quantity d :
  float_of_int quantity = ok d ->
  ai_kept s = true ->
  ai_quote s (ai_price s) quantity = ok (ai_stamped quantity d s).
Proof.
  intros Hd Hk. apply ai_kept_dict in Hk. destruct Hk as [kv ->].
  unfold ai_quote, ai_stamped, float_mul_int, py_get, res_bind, entry_field.
  rewrite Hd. reflexivity.
Qed.

Lemma merge_ai_run quantity d :
  float_of_int quantity = ok d ->
  forall elems results,
    merge_ai elems quantity results =
      ok (results
          ++ firstn (3 - List.length results)
               (map (ai_stamped quantity d) (filter ai_kept elems))).
Proof.
  intros Hd elems. induction elems as [|s rest IH]; intros results.
  - cbn. now rewrite firstn_nil, app_nil_r.
  - rewrite merge_ai_cons. destruct (Nat.leb_spec 3 (List.length results)) as [Hfull|Hroom].
    + replace (3 - List.length results) with 0 by lia.
      now rewrite firstn_O, app_nil_r.
    + cbn [filter]. unfold ai_kept at 1.
      destruct (ai_price s <=? 0)%float eqn:Hp; cbn [negb]; [apply IH|].
      erewrite ai_quote_ok;
        [|exact Hd|unfold ai_kept; now rewrite Hp].
      rewrite IH, <- app_assoc, length_app. cbn [List.length map app].
      replace (3 - List.length results) with (S (3 - (List.length results + 1)))
        by lia.
      reflexivity.
Qed.


Lemma adapter_listings_length item : List.length (adapter_listings w item) <= 3.
Proof.
  unfold adapter_listings, found. rewrite !length_app.
  destruct (or_none (wilcon_try w item)), (or_none (ace_try w item)),
    (or_none (shopee_try w item)); cbn; lia.
Qed.

(** A well-formed request whose quantity has a double, up to the AI
    fallback. *)
Lemma get_stores_run body item quantity d :
  request_fields body = ok (item, quantity) ->
  item <> [] ->
  float_of_int quantity = ok d ->
  get_stores w body =
    let results := map (stamped quantity d) (adapter_listings w item) in
    if (List.length results <? 3)%nat
    then match ai_fallback w item quantity results three_shops with
         | (inl e, t) => (ServerError e, t)
         | (inr rs, t) => (Stores (firstn 3 rs), t)
         end
    else (Stores results, three_shops).
Proof.
  intros Hf Hne Hd. erewrite get_stores_collect by eassumption.
  rewrite collect_quotes_unfold. erewrite adapter_phase_run by exact Hd.
  cbv zeta. destruct (Nat.ltb_spec (List.length (map (stamped quantity d)
                                       (adapter_listings w item))) 3) as [Hl|Hl].
  - destruct (ai_fallback _ _ _ _ _) as [[e|rs] t]; reflexivity.
  - rewrite firstn_all2; [reflexivity|].
    rewrite length_map in *. apply adapter_listings_length.
Qed.

(** X1. When the quantity has a double, the adapter loop calls Wilcon, ACE
    and Shopee, each once and in this order, whatever they return: three
    adapters give at most three quotes, so the [break] of lines 152-153
    never skips one. The loop ends with the quotes of the adapters that
    returned a listing, in the same order, and the calls of the whole
    request are these three, followed by one call to the chat model when
    fewer than three adapters returned a listing. *)
Theorem adapter_loop_calls_every_shop item quantity d :
  float_of_int quantity = ok d ->
  adapter_loop (fetch_funcs w) item quantity [] [] =
    (ok (map (stamped quantity d) (adapter_listings w item)),
     [CallWilcon; CallAce; CallShopee])
  /\ forall body,
       request_fields body = ok (item, quantity) ->
       item <> [] ->
       snd (get_stores w body) =
         [CallWilcon; CallAce; CallShopee]
         ++ (if (List.length (adapter_listings w item) <? 3)%nat
             then [CallAI] else []).
Proof.
  intros Hd. split; [now apply adapter_phase_run|].
  intros body Hf Hne. erewrite get_stores_run by eassumption. cbv zeta.
  rewrite length_map.
  destruct (List.length (adapter_listings w item) <? 3)%nat.
  - pose proof (ai_fallback_trace w item quantity
                  (map (stamped quantity d) (adapter_listings w item))
                  three_shops) as Ht.
    destruct (ai_fallback _ _ _ _ _) as [[e|rs] t]; exact Ht.
  - reflexivity.
Qed.

(** X2. When the three adapters each return a listing, the response is
    their three quotes, Wilcon first, then ACE, then Shopee, and the chat
    model is not called. *)
Theorem three_listings_no_ai body item quantity d :
  request_fields body = ok (item, quantity) ->
  item <> [] ->
  float_of_int quantity = ok d ->
  List.length (adapter_listings w item) = 3 ->
  get_stores w body =
    (Stores (map (stamped quantity d) (adapter_listings w item)),
     [CallWilcon; CallAce; CallShopee])
  /\ exists a b c,
       or_none (wilcon_try w item) = Some a
       /\ or_none (ace_try w item) = Some b
       /\ or_none (shopee_try w item) = Some c
       /\ adapter_listings w item = [a; b; c].
Proof.
  intros Hf Hne Hd Hlen. split.
  - erewrite get_stores_run by eassumption. cbv zeta.
    rewrite length_map, Hlen. reflexivity.
  - revert Hlen. unfold adapter_listings, found.
    destruct (or_none (wilcon_try w item)) as [a|],
      (or_none (ace_try w item)) as [b|],
      (or_none (shopee_try w item)) as [c|]; cbn; try discriminate.
    intros _. exists a, b, c. auto.
Qed.

(** X3. When the quantity has a double, the AI loop appends to [results]
    the entries it keeps (those whose price is not [<= 0]), in their order,
    until [results] has 3 quotes; it leaves what [results] held untouched
    and never fails. *)
Theorem ai_loop_fills_to_three quantity d elems results :
  float_of_int quantity = ok d ->
  merge_ai elems quantity results =
    ok (results
        ++ firstn (3 - List.length results)
             (map (ai_stamped quantity d) (filter ai_kept elems))).
Proof. intros Hd. now apply merge_ai_run. Qed.


(** X5. When fewer than three adapters return a listing and the call to the
    chat model raises, the request ends in the 500 response: the quotes the
    adapters found are not returned. *)
Theorem chat_failure_is_server_error body item quantity d e :
  request_fields body = ok (item, quantity) ->
  item <> [] ->
  float_of_int quantity = ok d ->
  List.length (adapter_listings w item) < 3 ->
  chat w item = inl e ->
  get_stores w body = (ServerError e, [CallWilcon; CallAce; CallShopee; CallAI]).
Proof.
  intros Hf Hne Hd Hlen Hc.
  erewrite get_stores_run by eassumption. cbv zeta.
  rewrite length_map. apply Nat.ltb_lt in Hlen. rewrite Hlen.
  rewrite ai_fallback_unfold, Hc. reflexivity.
Qed.

(** X6. When the quantity is an integer too large for a double and an
    adapter returns a listing, line 149 raises and the request ends in the
    500 response, without a call to the chat model. *)
Theorem huge_quantity_is_server_error body item quantity e :
  request_fields body = ok (item, quantity) ->
  item <> [] ->
  float_of_int quantity = inl e ->
  adapter_listings w item <> [] ->
  fst (get_stores w body) = ServerError e
  /\ ai_calls (snd (get_stores w body)) = 0.
Proof.
  intros Hf Hne Hd Hl.
  erewrite get_stores_collect by eassumption.
  rewrite collect_quotes_unfold, adapter_phase_unfold.
  revert Hl. unfold adapter_listings, found.
  destruct (or_none (wilcon_try w item)) as [a|],
    (or_none (ace_try w item)) as [b|],
    (or_none (shopee_try w item)) as [c|];
    cbv beta zeta iota; repeat (erewrite stamp_raise by exact Hd);
    cbn; try (intros _; split; reflexivity).
  intros H. now contradiction H.
Qed.

(** ** What a listing tells about the page it comes from *)

Lemma wilcon_try_some item l :
  wilcon_try w item = ok (Some l) <->
  exists c text price,
    get_wilcon w item = ok (Some c)
    /\ price_text c = Some text
    /\ scraped_price text = ok price
    /\ l = {| l_store := lit "Wilcon Depot â€“ "
                         ++ match title_text c with
                            | Some t => t
                            | None => item
                            end;
              l_address := lit "Various Wilcon branches in Metro Manila";
              l_unit_price := price;
              l_confidence := lit "high";
              l_source := lit "Wilcon" |}.
Proof.
  unfold wilcon_try, res_bind. split.
  - destruct (get_wilcon w item) as [e|[c|]]; try discriminate.
    destruct (price_text c) as [text|] eqn:Ht; try discriminate.
    destruct (scraped_price text) as [e|price] eqn:Hp; try discriminate.
    intros H. inversion H. exists c, text, price. auto.
  - intros (c & text & price & Hg & Ht & Hp & ->).
    rewrite Hg, Ht, Hp. reflexivity.
Qed.

Lemma ace_try_some item l :
  ace_try w item = ok (Some l) <->
  exists c text price,
    get_ace w item = ok (Some c)
    /\ price_text c = Some text
    /\ scraped_price text = ok price
    /\ l = {| l_store := lit "ACE Hardware â€“ "
                         ++ match title_text c with
                            | Some t => t
                            | None => item
                            end;
              l_address := lit "Various ACE branches in Metro Manila";
              l_unit_price := price;
              l_confidence := lit "high";
              l_source := lit "ACE" |}.
Proof.
  unfold ace_try, res_bind. split.
  - destruct (get_ace w item) as [e|[c|]]; try discriminate.
    destruct (price_text c) as [text|] eqn:Ht; try discriminate.
    destruct (scraped_price text) as [e|price] eqn:Hp; try discriminate.
    intros H. inversion H. exists c, text, price. auto.
  - intros (c & text & price & Hg & Ht & Hp & ->).
    rewrite Hg, Ht, Hp. reflexivity.
Qed.

Lemma or_none_some {A} (r : res (option A)) (a : A) :
  or_none r = Some a <-> r = ok (Some a).
Proof.
  destruct r as [e|[x|]]; cbn; split; intros H; try discriminate;
    inversion H; reflexivity.
Qed.

Lemma shopee_try_some item l :
  shopee_try w item = ok (Some l) ->
  exists data items first basic name raw shown,
    get_shopee w item = ok data
    /\ py_get data (lit "items") JNull = ok items
    /\ truthy items = true
    /\ py_first items = ok first
    /\ py_getitem first (lit "item_basic") = ok basic
    /\ py_get basic (lit "name") (JStr item) = ok name
    /\ py_get basic (lit "price") (JInt 0) = ok raw
    /\ py_truediv raw 100000 = ok (l_unit_price l)
    /\ (l_unit_price l <=? 0)%float = false
    /\ py_slice_format name 60 = ok shown
    /\ l = {| l_store := lit "Shopee â€“ " ++ shown;
              l_address := lit "Online / Philippines";
              l_unit_price := l_unit_price l;
              l_confidence := lit "high";
              l_source := lit "Shopee" |}.
Proof.
  unfold shopee_try, res_bind.
  destruct (get_shopee w item) as [e|data] eqn:H1; [discriminate|].
  destruct (py_get data (lit "items") JNull) as [e|items] eqn:H2; [discriminate|].
  destruct (truthy items) eqn:Ht; cbn [negb]; [|discriminate].
  destruct (py_first items) as [e|first] eqn:H3; [discriminate|].
  destruct (py_getitem first (lit "item_basic")) as [e|basic] eqn:H4;
    [discriminate|].
  destruct (py_get basic (lit "name") (JStr item)) as [e|name] eqn:H5;
    [discriminate|].
  destruct (py_get basic (lit "price") (JInt 0)) as [e|raw] eqn:H6;
    [discriminate|].
  destruct (py_truediv raw 100000) as [e|price] eqn:H7; [discriminate|].
  destruct (price <=? 0)%float eqn:Hp; [discriminate|].
  destruct (py_slice_format name 60) as [e|shown] eqn:H8; [discriminate|].
  intros H. inversion H; subst; clear H. cbn [l_unit_price].
  exists data, items, first, basic, name, raw, shown.
  repeat split; assumption.
Qed.

Lemma adapter_listings_sources item :
  Forall (fun l =>
            l_confidence l = lit "high"
            /\ (l_source l = lit "Wilcon" \/ l_source l = lit "ACE"
                \/ (l_source l = lit "Shopee"
                    /\ (l_unit_price l <=? 0)%float = false)))
    (adapter_listings w item).
Proof.
  unfold adapter_listings, found.
  apply Forall_app. split; [|apply Forall_app; split].
  - destruct (or_none (wilcon_try w item)) as [l|] eqn:H; constructor; [|constructor].
    apply or_none_some, wilcon_try_some in H.
    destruct H as (c & text & price & _ & _ & _ & ->).
    cbn [l_confidence l_source]. split; [reflexivity|left; reflexivity].
  - destruct (or_none (ace_try w item)) as [l|] eqn:H; constructor; [|constructor].
    apply or_none_some, ace_try_some in H.
    destruct H as (c & text & price & _ & _ & _ & ->).
    cbn [l_confidence l_source]. split; [reflexivity|right; left; reflexivity].
  - destruct (or_none (shopee_try w item)) as [l|] eqn:H; constructor; [|constructor].
    apply or_none_some, shopee_try_some in H.
    destruct H as (data & items & first & basic & name & raw & shown & H).
    destruct H as (_ & _ & _ & _ & _ & _ & _ & _ & Hp & _ & Hl).
    rewrite Hl. cbn [l_confidence l_source l_unit_price].
    split; [reflexivity|right; right; split; [reflexivity|exact Hp]].
Qed.

(** X7. Every quote of a successful response comes from Wilcon, ACE, Shopee
    or the AI: a quote from a shop has confidence "high", and a quote from
    Shopee or from the AI has a price that is not [<= 0] (the two tests of
    lines 112 and 200); the two scrapers give no such guarantee. *)
Theorem every_quote_is_sourced body results t :
  get_stores w body = (Stores results, t) -> Forall sourced results.
Proof.
  intros H. apply get_stores_Stores_inv in H.
  destruct H as (item & quantity & rs & _ & _ & Hc & ->).
  apply Forall_firstn_keep. revert Hc. rewrite collect_quotes_unfold.
  destruct (adapter_loop (fetch_funcs w) item quantity [] [])
    as [[e|results] t1] eqn:Hloop; [discriminate|].
  assert (Hres : Forall sourced results).
  { apply adapter_phase_listings in Hloop.
    pose proof (adapter_listings_sources item) as Hs.
    induction Hloop as [|l q ls qs Hq _ IH]; [constructor|].
    inversion Hs as [|? ? [Hc Hsrc] Hs']; subst.
    constructor; [|now apply IH].
    apply stamp_fields in Hq. destruct Hq as (Hq1 & Hq2 & Hq3).
    unfold sourced. rewrite Hq1, Hq2, Hq3, Hc.
    destruct Hsrc as [Hw|[Ha|[Hsh Hp]]].
    - left. split; [left; exact Hw|reflexivity].
    - left. split; [right; exact Ha|reflexivity].
    - right. left. split; [exact Hsh|split; [reflexivity|exact Hp]]. }
  destruct (List.length results <? 3)%nat.
  - rewrite ai_fallback_unfold.
    destruct (chat w item) as [e|content]; [discriminate|].
    destruct (extract_ai_stores _) as [e|v]; [discriminate|].
    destruct (py_iter v) as [e|elems]; [discriminate|].
    intros H. inversion H as [[Hm Ht]]. revert Hm.
    apply merge_ai_Forall; [|exact Hres].
    intros s q Hq Hp. unfold sourced. right. right.
    pose proof Hq as Hq'. apply ai_quote_priced in Hq'. destruct Hq' as [_ Hu].
    rewrite Hu. split; [|exact Hp].
    revert Hq. unfold ai_quote, res_bind.
    destruct (py_get s (lit "store") _) as [e|st]; [discriminate|].
    destruct (py_get s (lit "address") _) as [e|ad]; [discriminate|].
    destruct (float_mul_int _ _) as [e|x]; [discriminate|].
    destruct (py_get s (lit "confidence") _) as [e|co]; [discriminate|].
    intros Hq. inversion Hq. reflexivity.
  - intros H. inversion H; subst. exact Hres.
Qed.

(** X10. A scraper returns a listing exactly when the page was fetched, has
    a product card with a price element, and [float] accepts the first word
    of the price text once the currency literal and the commas are removed.
    The listing then names the store after the card's title, or after the
    search keywords when the card has no title element. In every other case
    (transport failure, no card, no price element, blank or malformed
    price) the scraper returns [None]; it never raises. *)
Theorem scraper_listing_iff item t l :
  (fetch_price_wilcon w item t = (ok (Some l), t ++ [CallWilcon]) <->
   exists c text price,
     get_wilcon w item = ok (Some c)
     /\ price_text c = Some text
     /\ scraped_price text = ok price
     /\ l = {| l_store := lit "Wilcon Depot â€“ "
                          ++ match title_text c with
                             | Some ti => ti
                             | None => item
                             end;
               l_address := lit "Various Wilcon branches in Metro Manila";
               l_unit_price := price;
               l_confidence := lit "high";
               l_source := lit "Wilcon" |}) /\
  (fetch_price_ace w item t = (ok (Some l), t ++ [CallAce]) <->
   exists c text price,
     get_ace w item = ok (Some c)
     /\ price_text c = Some text
     /\ scraped_price text = ok price
     /\ l = {| l_store := lit "ACE Hardware â€“ "
                          ++ match title_text c with
                             | Some ti => ti
                             | None => item
                             end;
               l_address := lit "Various ACE branches in Metro Manila";
               l_unit_price := price;
               l_confidence := lit "high";
               l_source := lit "ACE" |}) /\
  (forall e, fst (fetch_price_wilcon w item t) <> inl e
             /\ fst (fetch_price_ace w item t) <> inl e).
Proof.
  assert (Hrun : forall (r r' : option listing) (c : call),
             (@inr pyexn _ r, t ++ [c]) = (ok r', t ++ [c]) <-> r = r').
  { intros r r' c. split; intros H; [inversion H|subst]; reflexivity. }
  split; [|split].
  - unfold fetch_price_wilcon, bind, emit, ret.
    rewrite Hrun, or_none_some. apply wilcon_try_some.
  - unfold fetch_price_ace, bind, emit, ret.
    rewrite Hrun, or_none_some. apply ace_try_some.
  - intros e. split; discriminate.
Qed.

(** X11. A Shopee listing has the price of the first item divided by
    100000, a price that is not [<= 0]; its store name is the item's name
    cut to its first 60 characters, the search keywords standing in for a
    missing name. *)
Theorem shopee_listing_facts item t t' l :
  fetch_price_shopee w item t = (ok (Some l), t') ->
  t' = t ++ [CallShopee]
  /\ (l_unit_price l <=? 0)%float = false
  /\ l_source l = lit "Shopee" /\ l_confidence l = lit "high"
  /\ exists data items first basic raw,
       get_shopee w item = ok data
       /\ py_get data (lit "items") JNull = ok items
       /\ py_first items = ok first
       /\ py_getitem first (lit "item_basic") = ok basic
       /\ py_get basic (lit "price") (JInt 0) = ok raw
       /\ py_truediv raw 100000 = ok (l_unit_price l)
       /\ (forall name,
              py_get basic (lit "name") (JStr item) = ok (JStr name) ->
              l_store l = lit "Shopee â€“ " ++ firstn 60 name).
Proof.
  unfold fetch_price_shopee, bind, emit, ret. intros H.
  inversion H as [[Hr Ht]]. apply or_none_some, shopee_try_some in Hr.
  destruct Hr as (data & items & first & basic & name & raw & shown & Hr).
  destruct Hr as (H1 & H2 & _ & H3 & H4 & H5 & H6 & H7 & Hp & H8 & Hl).
  split; [reflexivity|]. split; [exact Hp|].
  split; [rewrite Hl; reflexivity|]. split; [rewrite Hl; reflexivity|].
  exists data, items, first, basic, raw. repeat split; try assumption.
  intros name' Hn. rewrite H5 in Hn. inversion Hn; subst name.
  cbn [py_slice_format] in H8. inversion H8; subst shown.
  rewrite Hl. reflexivity.
Qed.


(** X8. A request without a JSON body, or whose body is falsy (an empty
    object or list, 0, null), is handled as the empty object: it gets the
    400 "Item is required". A body that is JSON but no object (a non-empty
    list, a number, a string) ends in the 500 response. Neither makes any
    outside call. *)
Theorem body_shapes :
  get_stores w None = (ItemRequired, []) /\
  (forall v, truthy v = false -> get_stores w (Some v) = (ItemRequired, [])) /\
  (forall v, truthy v = true -> (forall kv, v <> JObj kv) ->
             get_stores w (Some v) = (ServerError AttributeError, [])).
Proof.
  split; [|split].
  - apply get_stores_no_item with 1%Z. reflexivity.
  - intros v Hv. apply get_stores_no_item with 1%Z.
    unfold request_fields, request_item, request_quantity, request_data, py_or.
    rewrite Hv. reflexivity.
  - intros v Hv Hn. apply get_stores_fields_raise.
    unfold request_fields, request_item, request_data, py_or. rewrite Hv.
    destruct v; try reflexivity. now contradiction (Hn kv).
Qed.

(** X9. An item that is present but falsy (null, false, 0, an empty string
    or list) counts as missing, and the request gets the 400 response when
    its quantity converts; an item that is truthy and no string (a number,
    [true], a non-empty list or object) ends the request in the 500
    response. Neither makes any outside call. *)
Theorem item_of_wrong_type body kv v :
  request_data body = JObj kv ->
  lookup (lit "item") kv = Some v ->
  (truthy v = false ->
   forall quantity, request_quantity body = ok quantity ->
                    get_stores w body = (ItemRequired, [])) /\
  (truthy v = true -> (forall s, v <> JStr s) ->
   get_stores w body = (ServerError AttributeError, [])).
Proof.
  intros Hd Hl. split.
  - intros Hv quantity Hq. apply get_stores_no_item with quantity.
    apply request_fields_ok. split; [|exact Hq].
    unfold request_item, py_or. rewrite Hd. cbn [py_get res_bind].
    rewrite Hl, Hv. reflexivity.
  - intros Hv Hn. apply get_stores_fields_raise.
    unfold request_fields, request_item, py_or. rewrite Hd. cbn [py_get res_bind].
    rewrite Hl, Hv. destruct v; try reflexivity. now contradiction (Hn s).
Qed.

(** X13. The 400 response is returned exactly when the item is missing,
    falsy or blank once stripped and the quantity converts; it comes with no
    outside call. *)
Theorem item_required_iff body :
  (fst (get_stores w body) = ItemRequired <->
   request_item body = ok []
   /\ exists quantity, request_quantity body = ok quantity)
  /\ (fst (get_stores w body) = ItemRequired -> snd (get_stores w body) = []).
Proof.
  assert (Hback : request_item body = ok []
                  /\ (exists quantity, request_quantity body = ok quantity) ->
                  get_stores w body = (ItemRequired, [])).
  { intros [Hi [quantity Hq]].
    erewrite get_stores_no_item; [reflexivity|].
    apply request_fields_ok. split; [exact Hi|exact Hq]. }
  assert (Hfwd : fst (get_stores w body) = ItemRequired ->
                 request_item body = ok []
                 /\ exists quantity, request_quantity body = ok quantity).
  { destruct (request_fields body) as [e|[item quantity]] eqn:Hf.
    - erewrite get_stores_fields_raise by exact Hf. discriminate.
    - destruct item as [|c item].
      + intros _. apply request_fields_ok in Hf. destruct Hf. eauto.
      + erewrite get_stores_collect; [|exact Hf|discriminate].
        destruct (collect_quotes w (c :: item) quantity []) as [[e|rs] t];
          discriminate. }
  split; [split; [exact Hfwd|]|].
  - intros H. rewrite (Hback H). reflexivity.
  - intros H. rewrite (Hback (Hfwd H)). reflexivity.
Qed.

End Phases.

(* ===================================================================== *)
(** * The question generator, step by step *)
(* ===================================================================== *)

Section QuestionsFacts.
Context {B : Builtins}.
Variable ask : str -> res (option str).

Lemma generate_questions_unfold body :
  generate_questions ask body =
    match request_description body with
    | inl e => (QuestionsError e, [])
    | inr [] => (DescriptionRequired, [])
    | inr description =>
        match ask description with
        | inl e => (QuestionsError e, [CallAI])
        | inr content =>
            match answer_text content with
            | inl e => (QuestionsError e, [CallAI])
            | inr ai_text =>
                match extract_questions ai_text with
                | inl e => (QuestionsError e, [CallAI])
                | inr v => (Questions v, [CallAI])
                end
            end
        end
    end.
Proof.
  unfold generate_questions, generate_questions_try, bind, lift, emit, ret.
  destruct (request_description body) as [e|[|c d]]; try reflexivity.
  cbn [app]. destruct (ask (c :: d)) as [e|content]; [reflexivity|].
  destruct (answer_text content) as [e|ai_text]; [reflexivity|].
  destruct (extract_questions ai_text) as [e|v]; reflexivity.
Qed.

Lemma slice_reversed (a b : Z) (s : str) :
  (0 <= a)%Z -> (b <= a)%Z -> slice a b s = [].
Proof.
  intros Ha Hb. unfold slice.
  replace (Z.to_nat b - Z.to_nat a) with 0 by lia. reflexivity.
Qed.

(** X14. The description is required: a request without description, or
    with one that is blank once stripped, gets the 400 response; a
    description that is null or no string ends the request in the 500
    response (the default of line 298 stands in for a missing key only).
    Neither calls the chat model. *)
Theorem description_validation body kv :
  request_data body = JObj kv ->
  (lookup (lit "description") kv = None ->
   generate_questions ask body = (DescriptionRequired, [])) /\
  (forall s, lookup (lit "description") kv = Some (JStr s) -> strip s = [] ->
             generate_questions ask body = (DescriptionRequired, [])) /\
  (forall v, lookup (lit "description") kv = Some v -> (forall s, v <> JStr s) ->
             generate_questions ask body = (QuestionsError AttributeError, [])).
Proof.
  intros Hd. rewrite generate_questions_unfold.
  unfold request_description. rewrite Hd. cbn [py_get res_bind].
  split; [|split].
  - intros ->. reflexivity.
  - intros s -> Hs. cbn [py_strip]. rewrite Hs. reflexivity.
  - intros v -> Hn. destruct v; try reflexivity. now contradiction (Hn s).
Qed.

(** X15. With a description, the chat model is called once. An answer
    without "[" or without "]" gives the empty list of questions; an answer
    with both gives what [json.loads] makes of the text from the first "["
    to the last "]", returned as it is, or the 500 response when
    [json.loads] rejects it; an answer without content ends in the 500
    response, as does a failure of the call. *)
Theorem questions_from_answer body description :
  request_description body = ok description ->
  description <> [] ->
  (forall e, ask description = inl e ->
             generate_questions ask body = (QuestionsError e, [CallAI])) /\
  (ask description = ok None ->
   generate_questions ask body = (QuestionsError AttributeError, [CallAI])) /\
  (forall raw, ask description = ok (Some raw) ->
     (~ In 91%N raw \/ ~ In 93%N raw ->
      generate_questions ask body = (Questions (JArr []), [CallAI])) /\
     (In 91%N raw -> In 93%N raw ->
      generate_questions ask body =
        match json_loads (slice (find 91 (strip raw))
                            (rfind 93 (strip raw) + 1) (strip raw)) with
        | Some v => (Questions v, [CallAI])
        | None => (QuestionsError JSONDecodeError, [CallAI])
        end)).
Proof.
  intros Hd Hne. rewrite generate_questions_unfold, Hd.
  destruct description as [|c d]; [congruence|].
  split; [|split].
  - intros e ->. reflexivity.
  - intros ->. reflexivity.
  - intros raw ->. cbn [answer_text]. unfold extract_questions.
    destruct (strip_positions raw) as (n & Hn).
    destruct (Hn 91%N eq_refl) as [Hin1 _].
    destruct (Hn 93%N eq_refl) as [Hin2 _].
    split.
    + intros Hno.
      assert (H : ((find 91 (strip raw) =? -1)%Z
                   || (rfind 93 (strip raw) =? -1)%Z) = true).
      { apply orb_true_iff. rewrite !Z.eqb_eq, find_none, rfind_none. tauto. }
      rewrite H. reflexivity.
    + intros H1 H2.
      assert (H : ((find 91 (strip raw) =? -1)%Z
                   || (rfind 93 (strip raw) =? -1)%Z) = false).
      { apply orb_false_iff. rewrite !Z.eqb_neq, find_none, rfind_none. tauto. }
      rewrite H. destruct (json_loads _); reflexivity.
Qed.

(** X16. Unlike [get_stores], [generate_questions] does not test that the
    last "]" comes after the first "[": when it comes before, the slice of
    line 337 is empty, [json.loads] receives the empty string, and when it
    rejects it the request ends in the 500 response. *)
Theorem questions_reversed_brackets body description raw :
  request_description body = ok description ->
  description <> [] ->
  ask description = ok (Some raw) ->
  In 91%N raw -> In 93%N raw ->
  (rfind 93 raw < find 91 raw)%Z ->
  json_loads [] = None ->
  generate_questions ask body = (QuestionsError JSONDecodeError, [CallAI]).
Proof.
  intros Hd Hne Ha H1 H2 Hlt Hj. rewrite generate_questions_unfold, Hd.
  destruct description as [|c d]; [congruence|].
  rewrite Ha. cbn [answer_text]. unfold extract_questions.
  destruct (strip_positions raw) as (n & Hn).
  destruct (Hn 91%N eq_refl) as [Hin1 Hp1].
  destruct (Hn 93%N eq_refl) as [Hin2 Hp2].
  destruct (Hp1 H1) as [F _]. destruct (Hp2 H2) as [_ R].
  assert (H : ((find 91 (strip raw) =? -1)%Z
               || (rfind 93 (strip raw) =? -1)%Z) = false).
  { apply orb_false_iff. rewrite !Z.eqb_neq, find_none, rfind_none. tauto. }
  rewrite H.
  assert (H0 : (0 <= find 91 (strip raw))%Z).
  { assert (Hz : (0 <= 0)%Z) by lia.
    pose proof (@find_from_spec 91%N (strip raw) 0%Z Hz) as [Hs _].
    apply Hs. tauto. }
  rewrite slice_reversed by lia. now rewrite Hj.
Qed.

End QuestionsFacts.

(* ===================================================================== *)
(** * The purchase request, step by step *)
(* ===================================================================== *)

Section PurchaseFacts.
Context {B : Builtins} {F : Formatting}.
Variable o : Office.

Lemma startswith_app a b s :
  startswith (a ++ b) s = true -> startswith a s = true.
Proof.
  revert s. induction a as [|c a IH]; intros s; [reflexivity|].
  destruct s as [|x s]; cbn [app startswith]; [discriminate|].
  rewrite !andb_true_iff. intros [H1 H2]. split; [exact H1|now apply IH].
Qed.

Lemma contains_app a b s :
  contains a s = false -> contains (a ++ b) s = false.
Proof.
  induction s as [|x s IH]; cbn [contains]; rewrite !orb_false_iff.
  - intros [H _]. split; [|reflexivity].
    destruct (startswith (a ++ b) []) eqn:E; [|reflexivity].
    apply startswith_app in E. congruence.
  - intros [H1 H2]. split; [|now apply IH].
    destruct (startswith (a ++ b) (x :: s)) eqn:E; [|reflexivity].
    apply startswith_app in E. congruence.
Qed.

Lemma replace_absent old new s :
  contains old s = false -> replace old new s = s.
Proof.
  unfold replace. destruct old as [|c old]; [reflexivity|]. intros H.
  induction s as [|x s IH]; [reflexivity|].
  cbn [contains] in H. apply orb_false_iff in H. destruct H as [H1 H2].
  cbn [replace_go]. rewrite H1. f_equal. now apply IH.
Qed.

(** A text without two braces in a row holds no placeholder. *)
Lemma replace_braced rest new s :
  contains (lit "{{") s = false -> replace (lit "{{" ++ rest) new s = s.
Proof. intros H. apply replace_absent. now apply contains_app. Qed.

Lemma fill_store_untouched i s text text' :
  contains (lit "{{") text = false ->
  fill_store i s text = ok text' -> text' = text.
Proof.
  intros Hc. unfold fill_store, numbered, res_bind.
  destruct (py_get s (lit "store") _) as [e|st]; [discriminate|].
  destruct (py_get s (lit "address") _) as [e|ad]; [discriminate|].
  destruct (py_get s (lit "quantity") _) as [e|qn]; [discriminate|].
  destruct (py_get s (lit "unit_price") _) as [e|up]; [discriminate|].
  destruct (py_float up) as [e|upf]; [discriminate|].
  destruct (py_get s (lit "total_price") _) as [e|tp]; [discriminate|].
  destruct (py_float tp) as [e|tpf]; [discriminate|].
  rewrite !(fun rest new => @replace_braced rest new text Hc).
  intros H. inversion H. reflexivity.
Qed.

Lemma fill_stores_untouched stores : forall i text text',
  contains (lit "{{") text = false ->
  fill_stores i stores text = ok text' -> text' = text.
Proof.
  induction stores as [|s rest IH]; intros i text text' Hc; cbn [fill_stores].
  - intros H. inversion H. reflexivity.
  - unfold res_bind. destruct (fill_store i s text) as [e|t1] eqn:H1; [discriminate|].
    apply fill_store_untouched in H1; [|exact Hc]. subst t1. now apply IH.
Qed.

Lemma fill_paragraph_untouched item description purpose quantity stores text text' :
  contains (lit "{{") text = false ->
  fill_paragraph o item description purpose quantity stores text = ok text' ->
  text' = text.
Proof.
  intros Hc. unfold fill_paragraph, res_bind.
  change (lit "{{item}}") with (lit "{{" ++ lit "item}}").
  change (lit "{{description}}") with (lit "{{" ++ lit "description}}").
  change (lit "{{purpose}}") with (lit "{{" ++ lit "purpose}}").
  change (lit "{{quantity}}") with (lit "{{" ++ lit "quantity}}").
  change (lit "{{date}}") with (lit "{{" ++ lit "date}}").
  rewrite !(fun rest new => @replace_braced rest new text Hc).
  destruct (py_iter stores) as [e|elems]; [discriminate|].
  now apply fill_stores_untouched.
Qed.

Lemma fill_paragraphs_untouched item description purpose quantity stores ps :
  forall filled,
    fill_paragraphs o item description purpose quantity stores ps = ok filled ->
    Forall2 (fun p p' => contains (lit "{{") p = false -> p' = p) ps filled.
Proof.
  induction ps as [|p rest IH]; intros filled; cbn [fill_paragraphs].
  - intros H. inversion H. constructor.
  - unfold res_bind.
    destruct (fill_paragraph o item description purpose quantity stores p)
      as [e|p'] eqn:Hp; [discriminate|].
    destruct (fill_paragraphs o item description purpose quantity stores rest)
      as [e|rest']; [discriminate|].
    intros H. inversion H; subst. constructor; [|now apply IH].
    intros Hc. now apply fill_paragraph_untouched in Hp.
Qed.

Lemma submit_pr_unfold r kv :
  pr_data r = ok (JObj kv) ->
  submit_pr o r =
    match template_name_of kv with
    | JStr name =>
        if template_exists o name
        then match open_template o name with
             | inl e => PrError e
             | inr paragraphs =>
                 match fill_paragraphs o
                         (match lookup (lit "item") kv with
                          | Some v => v | None => JStr [] end)
                         (match lookup (lit "description") kv with
                          | Some v => v | None => JStr [] end)
                         (match lookup (lit "purpose") kv with
                          | Some v => v | None => JStr [] end)
                         (match lookup (lit "quantity") kv with
                          | Some v => v | None => JStr [] end)
                         (match lookup (lit "stores") kv with
                          | Some v => v | None => JArr [] end)
                         paragraphs with
                 | inl e => PrError e
                 | inr filled =>
                     match save o filled with
                     | inl e => PrError e
                     | inr _ => Document filled
                     end
                 end
             end
        else TemplateNotFound name
    | _ => PrError TypeError
    end.
Proof.
  intros Hd. unfold submit_pr, submit_pr_try, template_name_of.
  rewrite Hd. cbn [res_bind py_get].
  destruct (lookup (lit "template_name") kv) as [v|].
  - destruct v; try reflexivity.
    destruct (template_exists o s); cbn [negb]; [|reflexivity].
    unfold res_bind.
    destruct (open_template o s) as [e|ps]; [reflexivity|].
    destruct (fill_paragraphs _ _ _ _ _ _ _) as [e|filled]; [reflexivity|].
    destruct (save o filled) as [e|u]; reflexivity.
  - destruct (template_exists o (lit "template1.docx")); cbn [negb]; [|reflexivity].
    unfold res_bind.
    destruct (open_template o _) as [e|ps]; [reflexivity|].
    destruct (fill_paragraphs _ _ _ _ _ _ _) as [e|filled]; [reflexivity|].
    destruct (save o filled) as [e|u]; reflexivity.
Qed.

(** X17. The template is checked before anything is rendered: a template
    name that is no string ends the request in the 500 response, and a
    name (the request's, or "template1.docx" when it gives none) for which
    no file exists gets the 400 "Template not found", whatever the other
    fields hold. *)
Theorem template_is_checked_first r kv :
  pr_data r = ok (JObj kv) ->
  (forall name, template_name_of kv = JStr name ->
                template_exists o name = false ->
                submit_pr o r = TemplateNotFound name) /\
  ((forall name, template_name_of kv <> JStr name) ->
   submit_pr o r = PrError TypeError) /\
  (lookup (lit "template_name") kv = None ->
   template_name_of kv = JStr (lit "template1.docx")).
Proof.
  intros Hd. rewrite (submit_pr_unfold r Hd). split; [|split].
  - intros name -> He. rewrite He. reflexivity.
  - intros Hn. destruct (template_name_of kv); try reflexivity.
    now contradiction (Hn s).
  - intros Hl. unfold template_name_of. now rewrite Hl.
Qed.

(** X18. A rendered document has the paragraphs of its template, one for
    one and in the same order, and a paragraph that holds no "{{" comes
    back unchanged, whatever the request holds. *)
Theorem paragraphs_without_braces_unchanged r filled :
  submit_pr o r = Document filled ->
  exists name paragraphs,
    template_exists o name = true
    /\ open_template o name = ok paragraphs
    /\ List.length filled = List.length paragraphs
    /\ Forall2 (fun p p' => contains (lit "{{") p = false -> p' = p)
         paragraphs filled.
Proof.
  unfold submit_pr, submit_pr_try, res_bind.
  destruct (pr_data r) as [e|data]; [discriminate|].
  destruct (py_get data (lit "item") _) as [e|item]; [discriminate|].
  destruct (py_get data (lit "description") _) as [e|description]; [discriminate|].
  destruct (py_get data (lit "purpose") _) as [e|purpose]; [discriminate|].
  destruct (py_get data (lit "quantity") _) as [e|quantity]; [discriminate|].
  destruct (py_get data (lit "stores") _) as [e|stores]; [discriminate|].
  destruct (py_get data (lit "template_name") _) as [e|tn]; [discriminate|].
  destruct tn; try discriminate.
  destruct (template_exists o s) eqn:He; cbn [negb]; [|discriminate].
  destruct (open_template o s) as [e|ps] eqn:Ho; [discriminate|].
  destruct (fill_paragraphs o item description purpose quantity stores ps)
    as [e|f] eqn:Hf; [discriminate|].
  destruct (save o f) as [e|u]; [discriminate|].
  intros H. inversion H; subst f. exists s, ps.
  apply fill_paragraphs_untouched in Hf.
  repeat split; try assumption. symmetry. now apply Forall2_length in Hf.
Qed.

(** X19. The store entries are read once per paragraph, whether or not the
    paragraph holds their placeholders: when the first entry of "stores" is
    no object, a template with at least one paragraph ends the request in
    the 500 response, while a template without paragraphs is returned as it
    is. *)
Theorem store_that_is_no_object r kv name paragraphs stores s rest :
  pr_data r = ok (JObj kv) ->
  template_name_of kv = JStr name ->
  template_exists o name = true ->
  open_template o name = ok paragraphs ->
  lookup (lit "stores") kv = Some stores ->
  py_iter stores = ok (s :: rest) ->
  (forall fields, s <> JObj fields) ->
  (paragraphs <> [] -> submit_pr o r = PrError AttributeError) /\
  (paragraphs = [] ->
   submit_pr o r = match save o [] with
                   | inl e => PrError e
                   | inr _ => Document []
                   end).
Proof.
  intros Hd Hn He Ho Hl Hi Hs.
  rewrite (submit_pr_unfold r Hd), Hn, He, Ho, Hl. split.
  - destruct paragraphs as [|p ps]; [congruence|]. intros _.
    cbn [fill_paragraphs]. unfold fill_paragraph, res_bind. rewrite Hi.
    cbn [fill_stores]. unfold fill_store, res_bind.
    destruct s; try reflexivity. now contradiction (Hs kv0).
  - intros ->. reflexivity.
Qed.

End PurchaseFacts.

(* ===================================================================== *)
(** * More concrete requests *)
(* ===================================================================== *)

Module MoreRuns.
Import Scenario Cases.

#[local] Existing Instance cpython.

(** Closes an equation between closed terms by evaluation. *)
Ltac run := vm_compute; reflexivity.

(** Only Shopee answers; one hammer. *)
Lemma adapter_loop_calls_every_shop_witness :
  adapter_loop (fetch_funcs (shopee_only (JInt 123450000))) (lit "hammer") 1 [] []
  = (ok (map (stamped 1 1%float)
           (adapter_listings (shopee_only (JInt 123450000)) (lit "hammer"))),
     [CallWilcon; CallAce; CallShopee])
  /\ forall body,
       request_fields body = ok (lit "hammer", 1%Z) ->
       lit "hammer" <> [] ->
       snd (get_stores (shopee_only (JInt 123450000)) body) =
         [CallWilcon; CallAce; CallShopee]
         ++ (if (List.length (adapter_listings (shopee_only (JInt 123450000))
                                (lit "hammer")) <? 3)%nat
             then [CallAI] else []).
Proof.
  refine (@adapter_loop_calls_every_shop cpython
            (shopee_only (JInt 123450000)) (lit "hammer") 1%Z 1%float _).
  run.
Defined.

(** The three shops answer. *)
Lemma three_listings_no_ai_witness :
  get_stores all_shops hammer =
    (Stores (map (stamped 1 1%float) (adapter_listings all_shops (lit "hammer"))),
     [CallWilcon; CallAce; CallShopee])
  /\ exists a b c,
       or_none (wilcon_try all_shops (lit "hammer")) = Some a
       /\ or_none (ace_try all_shops (lit "hammer")) = Some b
       /\ or_none (shopee_try all_shops (lit "hammer")) = Some c
       /\ adapter_listings all_shops (lit "hammer") = [a; b; c].
Proof.
  refine (@three_listings_no_ai cpython all_shops hammer (lit "hammer")
            1%Z 1%float _ _ _ _).
  - run.
  - discriminate.
  - run.
  - run.
Defined.

(** A priced entry and a string, for two items. *)
Lemma ai_loop_fills_to_three_witness :
  merge_ai [JObj [(lit "price", JInt 5)]; JStr (lit "x")] 2 []
  = ok ([] ++ firstn (3 - List.length (@nil quote))
                (map (ai_stamped 2 2%float)
                   (filter ai_kept
                      [JObj [(lit "price", JInt 5)]; JStr (lit "x")]))).
Proof.
  refine (@ai_loop_fills_to_three cpython 2%Z 2%float
            [JObj [(lit "price", JInt 5)]; JStr (lit "x")] [] _).
  run.
Defined.


(** Every service is down. *)
Lemma chat_failure_is_server_error_witness :
  get_stores offline hammer
  = (ServerError ServiceError, [CallWilcon; CallAce; CallShopee; CallAI]).
Proof.
  refine (@chat_failure_is_server_error cpython offline hammer (lit "hammer")
            1%Z 1%float ServiceError _ _ _ _ _).
  - run.
  - discriminate.
  - run.
  - vm_compute. lia.
  - reflexivity.
Defined.

(** A quantity of 2^1024 and a Wilcon listing. *)
Lemma huge_quantity_is_server_error_witness :
  fst (get_stores (wilcon_only (lit "5")) (request (lit "hammer") (JInt (2 ^ 1024))))
  = ServerError OverflowError
  /\ ai_calls (snd (get_stores (wilcon_only (lit "5"))
                      (request (lit "hammer") (JInt (2 ^ 1024))))) = 0.
Proof.
  refine (@huge_quantity_is_server_error cpython (wilcon_only (lit "5"))
            (request (lit "hammer") (JInt (2 ^ 1024))) (lit "hammer")
            (2 ^ 1024)%Z OverflowError _ _ _ _).
  - run.
  - discriminate.
  - run.
  - vm_compute. discriminate.
Defined.

(** One Shopee quote and one AI quote. *)
Lemma every_quote_is_sourced_witness :
  Forall sourced (stores_of (fst (get_stores shopee_and_ai hammer))).
Proof.
  refine (@every_quote_is_sourced cpython shopee_and_ai hammer
            (stores_of (fst (get_stores shopee_and_ai hammer)))
            [CallWilcon; CallAce; CallShopee; CallAI] _).
  run.
Defined.

(** The body [{"item": 5}]. *)
Lemma item_of_wrong_type_witness :
  get_stores offline (Some (JObj [(lit "item", JInt 5)]))
  = (ServerError AttributeError, []).
Proof.
  refine (proj2 (@item_of_wrong_type cpython offline
                   (Some (JObj [(lit "item", JInt 5)]))
                   [(lit "item", JInt 5)] (JInt 5) _ _) _ _).
  - reflexivity.
  - run.
  - reflexivity.
  - discriminate.
Defined.

(** The listing of an item priced 123450000. *)
Lemma shopee_listing_facts_witness :
  let l := shopee_listing (JInt 123450000) in
  l_unit_price l = 1234.5%float
  /\ (l_unit_price l <=? 0)%float = false
  /\ l_source l = lit "Shopee".
Proof.
  pose proof (@shopee_listing_facts cpython (shopee_only (JInt 123450000))
                (lit "hammer") [] [CallShopee]
                (shopee_listing (JInt 123450000))) as H.
  destruct H as (_ & Hp & Hs & _).
  - run.
  - cbv zeta. split; [run|]. split; [exact Hp|exact Hs].
Defined.

(** A body without description, for any chat model. *)
Lemma description_validation_witness :
  generate_questions (answers None) (Some (JObj [(lit "x", JNull)]))
  = (DescriptionRequired, []).
Proof.
  refine (proj1 (@description_validation cpython (answers None)
                   (Some (JObj [(lit "x", JNull)])) [(lit "x", JNull)] _) _).
  - reflexivity.
  - run.
Defined.

(** An answer without brackets. *)
Lemma questions_from_answer_witness :
  generate_questions (answers (Some (lit "none, sorry")))
    (describe (JStr (lit "pets")))
  = (Questions (JArr []), [CallAI]).
Proof.
  refine (proj1 (proj2 (proj2 (@questions_from_answer cpython
                   (answers (Some (lit "none, sorry")))
                   (describe (JStr (lit "pets"))) (lit "pets") _ _))
                   (lit "none, sorry") _) _).
  - run.
  - discriminate.
  - reflexivity.
  - left. vm_compute. intros H.
    repeat (destruct H as [H|H]; [discriminate H|]). exact H.
Defined.

(** An answer whose "]" comes before its "[". *)
Lemma questions_reversed_brackets_witness :
  generate_questions (answers (Some (lit " ] or [ ")))
    (describe (JStr (lit "pets")))
  = (QuestionsError JSONDecodeError, [CallAI]).
Proof.
  refine (@questions_reversed_brackets cpython
            (answers (Some (lit " ] or [ ")))
            (describe (JStr (lit "pets"))) (lit "pets") (lit " ] or [ ")
            _ _ _ _ _ _ _).
  - run.
  - discriminate.
  - reflexivity.
  - vm_compute. tauto.
  - vm_compute. tauto.
  - vm_compute. reflexivity.
  - run.
Defined.

#[local] Existing Instance cpython_format.

(** A request for a template that does not exist. *)
Lemma template_is_checked_first_witness :
  submit_pr office
    (JsonRequest (Some (JObj [(lit "template_name", JStr (lit "other.docx"))])))
  = TemplateNotFound (lit "other.docx").
Proof.
  refine (proj1 (@template_is_checked_first cpython cpython_format office
                   (JsonRequest
                      (Some (JObj [(lit "template_name",
                                    JStr (lit "other.docx"))])))
                   [(lit "template_name", JStr (lit "other.docx"))] _)
            (lit "other.docx") _ _).
  - reflexivity.
  - reflexivity.
  - run.
Defined.

(** The hammer request rendered on the three paragraphs of [office]. *)
Lemma paragraphs_without_braces_unchanged_witness :
  submit_pr office (JsonRequest (Some (JObj purchase)))
  = Document [lit "Purchase request";
              lit "Item: hammer, November 04, 2026";
              lit "Wilcon: â‚±1,234.50"]
  /\ exists name paragraphs,
       template_exists office name = true
       /\ open_template office name = ok paragraphs
       /\ List.length [lit "Purchase request";
                       lit "Item: hammer, November 04, 2026";
                       lit "Wilcon: â‚±1,234.50"]
          = List.length paragraphs
       /\ Forall2 (fun p p' => contains (lit "{{") p = false -> p' = p)
            paragraphs
            [lit "Purchase request";
             lit "Item: hammer, November 04, 2026";
             lit "Wilcon: â‚±1,234.50"].
Proof.
  split.
  - run.
  - refine (@paragraphs_without_braces_unchanged cpython cpython_format office
              (JsonRequest (Some (JObj purchase)))
              [lit "Purchase request";
               lit "Item: hammer, November 04, 2026";
               lit "Wilcon: â‚±1,234.50"] _).
    run.
Defined.

(** A store entry that is the number 5, on a template with paragraphs. *)
Lemma store_that_is_no_object_witness :
  submit_pr office (JsonRequest (Some (JObj bad_purchase)))
  = PrError AttributeError.
Proof.
  refine (proj1 (@store_that_is_no_object cpython cpython_format office
                   (JsonRequest (Some (JObj bad_purchase))) bad_purchase
                   (lit "template1.docx")
                   [lit "Purchase request";
                    lit "Item: {{item}}, {{date}}";
                    lit "{{store1}}: {{unit1}}"]
                   (JArr [JInt 5]) (JInt 5) []
                   _ _ _ _ _ _ _) _).
  - reflexivity.
  - reflexivity.
  - run.
  - reflexivity.
  - run.
  - reflexivity.
  - intros fields H. discriminate H.
  - intros H. discriminate H.
Defined.

(** The empty list and the number 5 as bodies. *)
Lemma body_shapes_witness :
  get_stores offline (Some (JArr [])) = (ItemRequired, [])
  /\ get_stores offline (Some (JInt 5)) = (ServerError AttributeError, []).
Proof.
  split.
  - refine (proj1 (proj2 (@body_shapes cpython offline)) (JArr []) _).
    reflexivity.
  - refine (proj2 (proj2 (@body_shapes cpython offline)) (JInt 5) _ _).
    + reflexivity.
    + intros kv H. discriminate H.
Defined.

(** A Wilcon card titled "Hammer" at "1,234.50". *)
Lemma scraper_listing_iff_witness :
  fetch_price_wilcon (wilcon_only (lit "1,234.50")) (lit "hammer") []
  = (ok (Some {| l_store := lit "Wilcon Depot â€“ " ++ lit "Hammer";
                 l_address := lit "Various Wilcon branches in Metro Manila";
                 l_unit_price := 1234.5%float;
                 l_confidence := lit "high";
                 l_source := lit "Wilcon" |}),
     [] ++ [CallWilcon]).
Proof.
  refine (proj2 (proj1 (@scraper_listing_iff cpython
                          (wilcon_only (lit "1,234.50")) (lit "hammer") []
                          {| l_store := lit "Wilcon Depot â€“ " ++ lit "Hammer";
                             l_address :=
                               lit "Various Wilcon branches in Metro Manila";
                             l_unit_price := 1234.5%float;
                             l_confidence := lit "high";
                             l_source := lit "Wilcon" |})) _).
  exists {| title_text := Some (lit "Hammer");
            price_text := Some (lit "1,234.50") |}, (lit "1,234.50"),
    1234.5%float.
  split; [reflexivity|]. split; [reflexivity|]. split; [run|reflexivity].
Defined.


(** An item of two spaces. *)
Lemma item_required_iff_witness :
  fst (get_stores offline (request_item_only (lit "  "))) = ItemRequired
  /\ snd (get_stores offline (request_item_only (lit "  "))) = [].
Proof.
  assert (H : request_item (request_item_only (lit "  ")) = ok []
              /\ exists quantity,
                   request_quantity (request_item_only (lit "  "))
                   = ok quantity).
  { split; [run|]. exists 1%Z. run. }
  split.
  - exact (proj2 (proj1 (@item_required_iff cpython offline
                           (request_item_only (lit "  ")))) H).
  - exact (proj2 (@item_required_iff cpython offline
                    (request_item_only (lit "  ")))
             (proj2 (proj1 (@item_required_iff cpython offline
                              (request_item_only (lit "  ")))) H)).
Defined.

End MoreRuns.
